(** * DeepfakeDetector: a model of [src/components/DeepfakeDetector.tsx]

    The React component keeps six [useState] slots and reacts to user
    gestures (dropping or picking a file, clicking the start button,
    clicking play/pause) and to timers.  The asynchronous function
    [simulateMLProcessing] suspends at one [await] per stage; it is modelled
    as a coroutine whose suspended executions are stored in the world and
    resumed when their timer fires.

    JavaScript numbers are modelled as exact rationals ([Q]); the module
    [Binary64] at the end of the definitions recomputes the progress values
    of the source's six stages in IEEE-754 double precision. *)

From Stdlib Require Import List String ZArith QArith Lia Lqa Bool Arith Floats.
Import ListNotations.

Local Open Scope string_scope.
Local Open Scope list_scope.
Local Open Scope Q_scope.

(** ** Data model *)

(** The fields of a browser [File] that the component reads. *)
Module File.
Record t : Type := mk { name : string; type : string; size : N }.
End File.

(** [interface DetectionResult] (lines 9-18). *)
Record Details : Type := mkDetails {
  faceAnalysis : Q;
  temporalConsistency : Q;
  artifactDetection : Q
}.

Record DetectionResult : Type := mkDetectionResult {
  isDeepfake : bool;
  confidence : Q;
  processingTime : Q;
  details : Details
}.

(** An element of the [stages] array (lines 76-83); [duration] is in
    milliseconds. *)
Record Stage : Type := mkStage { name : string; duration : Z }.

Definition stages : list Stage :=
  [ mkStage "Loading video frames" 800;
    mkStage "Face detection & extraction" 1200;
    mkStage "Temporal consistency analysis" 1000;
    mkStage "Artifact detection" 900;
    mkStage "Neural network inference" 1100;
    mkStage "Final classification" 600 ].

(** The argument of [toast]. *)
Inductive Variant : Type := Default | Destructive.

Record Toast : Type := mkToast {
  title : string;
  description : string;
  variant : Variant
}.

(** The [useState] slots of the component (lines 21-26). *)
Record State : Type := mkState {
  selectedFile : option File.t;
  isProcessing : bool;
  progress : Q;
  result : option DetectionResult;
  videoUrl : option string;
  isPlaying : bool
}.

(** Every effect the component performs, in the order it performs them:
    the calls of the state setters, of [toast] and of [setTimeout], and the
    resumption of an [await]. [EvSetTimeout i ms] is the timer created in
    iteration [i] of the loop, [EvResolved i] the moment its promise
    settles. *)
Inductive Event : Type :=
| EvSetSelectedFile (f : File.t)
| EvSetIsProcessing (b : bool)
| EvSetProgress (v : Q)
| EvSetResult (r : option DetectionResult)
| EvSetVideoUrl (u : string)
| EvSetIsPlaying (b : bool)
| EvToast (t : Toast)
| EvSetTimeout (i : nat) (ms : Z)
| EvResolved (i : nat).

(** The component together with its environment: [pending] holds the loop
    index of every suspended execution of [simulateMLProcessing] (one entry
    per timer that has not fired yet), [draws] counts the calls of
    [Math.random], [urls] the calls of [URL.createObjectURL], and [trace]
    lists the effects so far, oldest first. *)
Record World : Type := mkWorld {
  ui : State;
  pending : list nat;
  draws : nat;
  urls : nat;
  trace : list Event
}.

Definition initState : State := mkState None false 0 None None false.
Definition init : World := mkWorld initState [] 0 0 [].

(** The outcomes the specification distinguishes. *)
Inductive RunState : Type := Idle | Running | Succeeded | Failed | Cancelled.

(** The error taxonomy of the specification. The source has no [throw]
    statement, so no handler ever produces one of them. *)
Inductive Error : Type := InvalidPipelineError | AlreadyStartedError | StageFailure.

(** ** Effects *)

Definition emit (e : Event) (w : World) : World :=
  mkWorld (ui w) (pending w) (draws w) (urls w) (trace w ++ [e]).

Definition withUi (f : State -> State) (w : World) : World :=
  mkWorld (f (ui w)) (pending w) (draws w) (urls w) (trace w).

Definition withPending (p : list nat) (w : World) : World :=
  mkWorld (ui w) p (draws w) (urls w) (trace w).

Definition setSelectedFile (f : File.t) (w : World) : World :=
  emit (EvSetSelectedFile f)
    (withUi (fun s => mkState (Some f) (isProcessing s) (progress s) (result s)
                        (videoUrl s) (isPlaying s)) w).

Definition setIsProcessing (b : bool) (w : World) : World :=
  emit (EvSetIsProcessing b)
    (withUi (fun s => mkState (selectedFile s) b (progress s) (result s)
                        (videoUrl s) (isPlaying s)) w).

Definition setProgress (v : Q) (w : World) : World :=
  emit (EvSetProgress v)
    (withUi (fun s => mkState (selectedFile s) (isProcessing s) v (result s)
                        (videoUrl s) (isPlaying s)) w).

Definition setResult (r : option DetectionResult) (w : World) : World :=
  emit (EvSetResult r)
    (withUi (fun s => mkState (selectedFile s) (isProcessing s) (progress s) r
                        (videoUrl s) (isPlaying s)) w).

Definition setVideoUrl (u : string) (w : World) : World :=
  emit (EvSetVideoUrl u)
    (withUi (fun s => mkState (selectedFile s) (isProcessing s) (progress s)
                        (result s) (Some u) (isPlaying s)) w).

Definition setIsPlaying (b : bool) (w : World) : World :=
  emit (EvSetIsPlaying b)
    (withUi (fun s => mkState (selectedFile s) (isProcessing s) (progress s)
                        (result s) (videoUrl s) b) w).

Definition toast (t : Toast) (w : World) : World := emit (EvToast t) w.

(** [s.startsWith(p)] *)
Definition startsWith (s p : string) : bool := String.prefix p s.

(** [a > b] on numbers. *)
Definition gt (a b : Q) : bool := negb (Qle_bool a b).

(** ** The component *)

Section Component.

(** The stage list the run iterates over. The source binds it to the
    literal [stages]; the loop itself only uses [stages.length] and
    [stages[i].duration], so it is modelled for an arbitrary list. *)
Variable pl : list Stage.

(** [random k] is the value returned by the [k]-th call of
    [Math.random()], [objectUrl k] the URL returned by the [k]-th call of
    [URL.createObjectURL]. *)
Variable random : nat -> Q.
Variable objectUrl : nat -> string.

Definition Math_random (w : World) : Q * World :=
  (random (draws w),
   mkWorld (ui w) (pending w) (S (draws w)) (urls w) (trace w)).

Definition createObjectURL (f : File.t) (w : World) : string * World :=
  (objectUrl (urls w),
   mkWorld (ui w) (pending w) (draws w) (S (urls w)) (trace w)).

(** Lines 32-54. *)
Definition handleFileSelect (file : File.t) (w : World) : World :=
  if negb (startsWith (File.type file) "video/") then
    toast (mkToast "Invalid File Type" "Please select a video file." Destructive) w
  else
    let w := setSelectedFile file w in
    let w := setResult None w in
    let w := setProgress 0 w in
    let (url, w) := createObjectURL file w in
    let w := setVideoUrl url w in
    toast (mkToast "Video Loaded" ("Ready to analyze: " ++ File.name file)%string Default) w.

(** Lines 56-62: [files[0]] of the dropped files, when there is one. *)
Definition handleDrop (files : list File.t) (w : World) : World :=
  match files with
  | file :: _ => handleFileSelect file w
  | [] => w
  end.

(** Lines 64-69: [e.target.files] may be [null]. *)
Definition handleFileInput (files : option (list File.t)) (w : World) : World :=
  match files with
  | Some (file :: _) => handleFileSelect file w
  | _ => w
  end.

(** Lines 91-100: the object literal is evaluated field by field, so the
    five calls of [Math.random] happen in source order. *)
Definition mockResult (w : World) : DetectionResult * World :=
  let (r1, w) := Math_random w in
  let (r2, w) := Math_random w in
  let (r3, w) := Math_random w in
  let (r4, w) := Math_random w in
  let (r5, w) := Math_random w in
  (mkDetectionResult (gt r1 0.6) (0.75 + r2 * 0.24) 4.6
     (mkDetails (0.82 + r3 * 0.17) (0.78 + r4 * 0.21) (0.73 + r5 * 0.26)),
   w).

(** Lines 90-109, after the loop. [processingTime] is the constant 4.6,
    which the template literal prints as "4.6". *)
Definition finish (w : World) : World :=
  let (mock, w) := mockResult w in
  let w := setResult (Some mock) w in
  let w := setIsProcessing false w in
  toast (mkToast "Analysis Complete" "Detection completed in 4.6s"
           (if isDeepfake mock then Destructive else Default)) w.

(** The value passed to [setProgress] in iteration [i] (line 87). *)
Definition progressAt (i : nat) : Q :=
  (inject_Z (Z.of_nat (i + 1)) / inject_Z (Z.of_nat (List.length pl))) * 100.

(** The loop test of line 85 followed, when it succeeds, by the creation
    of the timer of line 86, at which the execution suspends. *)
Definition loopFrom (i : nat) (w : World) : World :=
  match nth_error pl i with
  | Some st =>
      withPending (pending w ++ [i]) (emit (EvSetTimeout i (duration st)) w)
  | None => finish w
  end.

(** Lines 71-86: the synchronous part of [simulateMLProcessing], up to the
    first [await]. *)
Definition simulateMLProcessing (w : World) : World :=
  let w := setIsProcessing true w in
  let w := setProgress 0 w in
  loopFrom 0 w.

(** Lines 87-88 and onwards: what runs when the [await] of iteration [i]
    resumes. *)
Definition resume (i : nat) (w : World) : World :=
  let w := setProgress (progressAt i) w in
  loopFrom (i + 1) w.

Definition removeAt (j : nat) (l : list nat) : list nat :=
  firstn j l ++ skipn (S j) l.

(** The [j]-th pending timer fires. *)
Definition timerFire (j : nat) (w : World) : World :=
  match nth_error (pending w) j with
  | Some i => resume i (emit (EvResolved i) (withPending (removeAt j (pending w)) w))
  | None => w
  end.

(** Lines 243-253: the start button is rendered only when a file is
    selected and is [disabled] while [isProcessing]; a disabled button
    does not call [onClick]. *)
Definition clickStart (w : World) : World :=
  match selectedFile (ui w) with
  | None => w
  | Some _ => if isProcessing (ui w) then w else simulateMLProcessing w
  end.

(** Lines 112-121 and 210-231: the play/pause button lives inside the
    video card, rendered only when [videoUrl] is set; the video's
    [onPlay]/[onPause] callbacks store the same value as line 119. *)
Definition togglePlayPause (w : World) : World :=
  match videoUrl (ui w) with
  | None => w
  | Some _ => setIsPlaying (negb (isPlaying (ui w))) w
  end.

Inductive UserAction : Type :=
| DropFiles (files : list File.t)
| PickFiles (files : option (list File.t))
| ClickStart
| ClickPlayPause.

Inductive Action : Type :=
| User (u : UserAction)
| TimerFire (j : nat).

Definition userStep (u : UserAction) (w : World) : World :=
  match u with
  | DropFiles files => handleDrop files w
  | PickFiles files => handleFileInput files w
  | ClickStart => clickStart w
  | ClickPlayPause => togglePlayPause w
  end.

Definition step (a : Action) (w : World) : World :=
  match a with
  | User u => userStep u w
  | TimerFire j => timerFire j w
  end.

Definition run (acts : list Action) (w : World) : World :=
  fold_left (fun w a => step a w) acts w.

(** No handler throws: every dispatch completes normally. *)
Definition dispatch (a : Action) (w : World) : Error + World := inr (step a w).

(** One uninterrupted run: a click on the start button followed by [k]
    timer firings. *)
Definition startAndFire (k : nat) : list Action :=
  User ClickStart :: repeat (TimerFire 0) k.

(** User gestures interleaved with timer firings: each element of [uss]
    is a burst of gestures followed by one timer firing. *)
Definition interleave (uss : list (list UserAction)) : list Action :=
  flat_map (fun us => map User us ++ [TimerFire 0]) uss.

End Component.


(** ** Observations on worlds and traces *)

(** How the component's state reads as a run state: a run is in progress
    while [isProcessing] holds, and has succeeded once a result is stored.
    Nothing in the source stores a failure or a cancellation. *)
Definition runState (w : World) : RunState :=
  if isProcessing (ui w) then Running
  else match result (ui w) with
       | Some _ => Succeeded
       | None => Idle
       end.

(** A world in which the start button is enabled and no run is suspended. *)
Definition ready (w : World) : Prop :=
  selectedFile (ui w) <> None /\ isProcessing (ui w) = false /\ pending w = [].

(** The effects performed after [w0] was reached. *)
Definition eventsSince (w0 w : World) : list Event :=
  skipn (List.length (trace w0)) (trace w).

(** The values passed to [setProgress]. *)
Fixpoint progressValues (tr : list Event) : list Q :=
  match tr with
  | [] => []
  | EvSetProgress v :: tl => v :: progressValues tl
  | _ :: tl => progressValues tl
  end.

Fixpoint nondecreasing (l : list Q) : bool :=
  match l with
  | a :: ((b :: _) as tl) => Qle_bool a b && nondecreasing tl
  | _ => true
  end.

(** *** Sequential execution, as an acceptor of traces *)

(** [Starting]: the run has not yet reset the progress value;
    [Between d]: no stage is in flight and [d] stages have settled and
    reported; [InFlight i]: the timer of stage [i] is running;
    [Settled i]: stage [i] has settled and not yet reported. *)
Inductive Phase : Type :=
| Starting
| Between (d : nat)
| InFlight (i : nat)
| Settled (i : nat).

(** A timer may be created only for the next stage and only while none is
    in flight; a stage may settle only while it is in flight. A call of
    [setProgress] is admitted in two places only: once with the value 0
    before the first timer, and once after each settled stage, before
    anything else happens to the stages. *)
Definition advance (p : Phase) (e : Event) : option Phase :=
  match e with
  | EvSetTimeout i _ =>
      match p with
      | Between d => if Nat.eqb i d then Some (InFlight i) else None
      | _ => None
      end
  | EvResolved i =>
      match p with
      | InFlight j => if Nat.eqb i j then Some (Settled i) else None
      | _ => None
      end
  | EvSetProgress v =>
      match p with
      | Starting => if Qeq_bool v 0 then Some (Between O) else None
      | Settled i => Some (Between (S i))
      | _ => None
      end
  | _ => Some p
  end.

Fixpoint accept (p : Phase) (tr : list Event) : option Phase :=
  match tr with
  | [] => Some p
  | e :: tl =>
      match advance p e with
      | Some p' => accept p' tl
      | None => None
      end
  end.

(** *** The formulas of the specification *)

Definition sumQ (l : list Q) : Q := fold_right Qplus 0 l.



Definition mean (l : list Q) : Q := sumQ l / inject_Z (Z.of_nat (List.length l)).

Definition subScores (r : DetectionResult) : list Q :=
  [ faceAnalysis (details r); temporalConsistency (details r);
    artifactDetection (details r) ].

(** The specification's default aggregation, with threshold [t]. *)
Definition defaultAggregation (t : Q) (r : DetectionResult) : Prop :=
  (isDeepfake r = true <-> t < mean (subScores r)) /\
  confidence r == mean (subScores r).


Definition inUnit (q : Q) : Prop := 0 <= q <= 1.

Definition resultBounds (r : DetectionResult) : Prop :=
  inUnit (confidence r) /\ Forall inUnit (subScores r) /\ 0 <= processingTime r.

(** ** The progress values in double precision *)

Module Binary64.
Local Open Scope float_scope.

Definition ofNat (k : nat) : float := PrimFloat.of_uint63 (Uint63.of_nat k).

(** Line 87 with JavaScript's arithmetic: [((i + 1) / n) * 100]. *)
Definition progressAt (n i : nat) : float := (ofNat (i + 1) / ofNat n) * 100.

Definition progressOfRun (n : nat) : list float :=
  0 :: map (progressAt n) (seq 0 n).

Fixpoint nondecreasing (l : list float) : bool :=
  match l with
  | a :: ((b :: _) as tl) => PrimFloat.leb a b && nondecreasing tl
  | _ => true
  end.

(** The same quantity with the multiplication first: [100 * (i + 1) / n]. *)
Definition timesFirst (n i : nat) : float := (100 * ofNat (i + 1)) / ofNat n.

(** [100 * completedWeight / totalWeight] for the first [k] of the weights
    [ws]. *)
Definition weighted (ws : list nat) (k : nat) : float :=
  (100 * ofNat (fold_right Nat.add O (firstn k ws)))
    / ofNat (fold_right Nat.add O ws).
End Binary64.

(** ** Concrete inputs used by the examples *)

Definition clip : File.t := File.mk "clip.mp4" "video/mp4" 1048576.
Definition other : File.t := File.mk "other.webm" "video/webm" 2097152.
Definition picture : File.t := File.mk "photo.png" "image/png" 4096.

Definition halves : nat -> Q := fun _ => 0.5.
Definition zeros : nat -> Q := fun _ => 0.
Definition blobs : nat -> string := fun _ => "blob:preview".

(** The component after [clip] has been dropped on it. *)
Definition loaded : World := run stages zeros blobs [User (DropFiles [clip])] init.

(** The run on [clip] after [k] of its timers have fired. *)
Definition analysing (k : nat) : World :=
  run stages zeros blobs (startAndFire k) loaded.

(** A run during which the user drops [other], after the third stage:
    one burst of gestures before each of the six timer firings. *)
Definition disturbed : list (list UserAction) :=
  [[]; []; []; [DropFiles [other]]; []; []].

(** The component after [other] has been dropped on it. *)
Definition otherLoaded : World :=
  run stages zeros blobs [User (DropFiles [other])] init.

(** ** The shape of an uninterrupted run *)

Section Shape.

Variable pl : list Stage.
Variable random : nat -> Q.

(** The result built from the five draws that start at draw [d]. *)
Definition mockAt (d : nat) : DetectionResult :=
  mkDetectionResult (gt (random d) 0.6) (0.75 + random (S d) * 0.24) 4.6
    (mkDetails (0.82 + random (S (S d)) * 0.17)
               (0.78 + random (S (S (S d))) * 0.21)
               (0.73 + random (S (S (S (S d)))) * 0.26)).

Definition finishEvents (d : nat) : list Event :=
  [ EvSetResult (Some (mockAt d)); EvSetIsProcessing false;
    EvToast (mkToast "Analysis Complete" "Detection completed in 4.6s"
               (if isDeepfake (mockAt d) then Destructive else Default)) ].

(** The effects of one completed stage. *)
Definition stageBlock (i : nat) (st : Stage) : list Event :=
  [ EvSetTimeout i (duration st); EvResolved i; EvSetProgress (progressAt pl i) ].

Fixpoint blocks (i : nat) (l : list Stage) : list Event :=
  match l with
  | [] => []
  | st :: tl => stageBlock i st ++ blocks (S i) tl
  end.

(** What the run does after its [k]-th stage has reported: it starts the
    timer of stage [k], or finishes when there is none. *)
Definition nextEvents (d k : nat) : list Event :=
  match nth_error pl k with
  | Some st => [EvSetTimeout k (duration st)]
  | None => finishEvents d
  end.

Definition runEvents (d k : nat) : list Event :=
  [EvSetIsProcessing true; EvSetProgress 0] ++ blocks 0 (firstn k pl) ++ nextEvents d k.

Definition lastProgress (k : nat) : Q :=
  match k with
  | O => 0
  | S j => progressAt pl j
  end.

(** The world reached from [w0] by a click on the start button and [k]
    timer firings. *)
Definition afterStages (w0 : World) (k : nat) : World :=
  let more := Nat.ltb k (List.length pl) in
  mkWorld
    (mkState (selectedFile (ui w0)) more (lastProgress k)
       (if more then result (ui w0) else Some (mockAt (draws w0)))
       (videoUrl (ui w0)) (isPlaying (ui w0)))
    (if more then [k] else [])
    (if more then draws w0 else 5 + draws w0)
    (urls w0)
    (trace w0 ++ runEvents (draws w0) k).

(** Either nothing is suspended and the processing flag is down, or
    exactly one execution is suspended, at a stage of the list, and the
    flag is up. *)
Definition oneRun (w : World) : Prop :=
  (isProcessing (ui w) = false /\ pending w = []) \/
  (isProcessing (ui w) = true /\ exists i, pending w = [i] /\ (i < List.length pl)%nat).

End Shape.

(** ** The rest of the component *)

(** Lines 123-141: the badge shown above the scores. The first badge is
    rendered with [variant="destructive"], the second with the default
    variant. *)
Record Badge : Type := mkBadge { badgeVariant : Variant; badgeLabel : string }.

Definition getResultBadge (s : State) : option Badge :=
  match result s with
  | None => None
  | Some r =>
      if isDeepfake r then Some (mkBadge Destructive "DEEPFAKE DETECTED")
      else Some (mkBadge Default "AUTHENTIC VIDEO")
  end.

(** The test of line 33, positively. *)
Definition isVideo (f : File.t) : bool := startsWith (File.type f) "video/".

(** The file a gesture hands to [handleFileSelect], when it hands one. *)
Definition offeredFile (a : Action) : option File.t :=
  match a with
  | User (DropFiles (f :: _)) => Some f
  | User (PickFiles (Some (f :: _))) => Some f
  | _ => None
  end.

(** Whether a gesture is a file selection that [handleFileSelect] accepts. *)
Definition selectsVideo (a : Action) : bool :=
  match offeredFile a with
  | Some f => isVideo f
  | None => false
  end.

(** The durations of the timers created, oldest first. *)
Fixpoint timeouts (tr : list Event) : list Z :=
  match tr with
  | [] => []
  | EvSetTimeout _ ms :: tl => ms :: timeouts tl
  | _ :: tl => timeouts tl
  end.

Definition sumZ (l : list Z) : Z := fold_right Z.add 0%Z l.

(** A drop or a pick reduced to the one file that lines 59-60 and 66-67
    look at. *)
Definition firstOnly (a : Action) : Action :=
  match a with
  | User (DropFiles (f :: _)) => User (DropFiles [f])
  | User (PickFiles (Some (f :: _))) => User (DropFiles [f])
  | User (PickFiles (Some [])) => User (DropFiles [])
  | User (PickFiles None) => User (DropFiles [])
  | _ => a
  end.

(** A drop without files, or a file dialog that reports none. *)
Definition emptyHanded (a : Action) : bool :=
  match a with
  | User (DropFiles []) => true
  | User (PickFiles None) => true
  | User (PickFiles (Some [])) => true
  | _ => false
  end.

(** A file selection that [handleFileSelect] turns down. *)
Definition rejected (a : Action) : bool :=
  match offeredFile a with
  | Some f => negb (isVideo f)
  | None => false
  end.

(** Two worlds that differ at most in the effects recorded so far. *)
Definition sameState (w w' : World) : Prop :=
  ui w = ui w' /\ pending w = pending w' /\ draws w = draws w' /\ urls w = urls w'.

(** *** Effects by the handler that performs them *)

Section Attribution.

Variable pl : list Stage.
Variable random : nat -> Q.
Variable objectUrl : nat -> string.

(** The effects of a history that are performed in the steps [sel]
    selects: each step runs one handler (or one continuation of
    [simulateMLProcessing]) to its end, and the effects it performs are
    the ones it appends to the record. *)
Fixpoint tracedBy (sel : Action -> bool) (acts : list Action) (w : World) : list Event :=
  match acts with
  | [] => []
  | a :: rest =>
      (if sel a then eventsSince w (step pl random objectUrl a w) else [])
        ++ tracedBy sel rest (step pl random objectUrl a w)
  end.

(** What the run does when stage [j] settles: lines 87-88, then the next
    timer or the end of the run. *)
Definition continuation (d j : nat) : list Event :=
  [EvResolved j; EvSetProgress (progressAt pl j)] ++ nextEvents pl random d (S j).

Definition continuations (d a m : nat) : list Event :=
  flat_map (continuation d) (seq a m).

End Attribution.

(** The steps in which code of [simulateMLProcessing] runs: the click that
    calls it, and the timer firings that resume it. *)
Definition byRun (a : Action) : bool :=
  match a with
  | User ClickStart => true
  | TimerFire _ => true
  | _ => false
  end.

(** The steps in which a stage settles. *)
Definition byTimer (a : Action) : bool :=
  match a with
  | TimerFire _ => true
  | _ => false
  end.

Definition everyStep (a : Action) : bool := true.

(** *** Invariants of the component's state *)

(** Without a selected file nothing else is set; with one, it is a video
    and its preview URL is stored. *)
Definition selectionConsistent (w : World) : Prop :=
  match selectedFile (ui w) with
  | Some f => isVideo f = true /\ videoUrl (ui w) <> None
  | None =>
      videoUrl (ui w) = None /\ isProcessing (ui w) = false /\
      result (ui w) = None /\ isPlaying (ui w) = false /\ pending w = []
  end.

Definition progressInRange (w : World) : Prop :=
  (0 <= progress (ui w) /\ progress (ui w) <= 100) /\
  (isProcessing (ui w) = true -> progress (ui w) < 100).

(** The preview shows the object URL created last. *)
Definition previewIsLatest (objectUrl : nat -> string) (w : World) : Prop :=
  videoUrl (ui w) =
    match urls w with
    | O => None
    | S k => Some (objectUrl k)
    end.

(** Draws under which a first run classifies the video as a deepfake and a
    second run as authentic. *)
Definition flipping : nat -> Q := fun k => if Nat.ltb k 5 then 0.9 else 0.

(** * Properties *)

(** Evaluates the setters down to record constructors, innermost first. *)
Ltac effects :=
  cbv beta iota zeta delta
    [toast setIsProcessing setResult setProgress setSelectedFile setVideoUrl
     setIsPlaying emit withUi withPending
     ui pending draws urls trace selectedFile isProcessing progress result
     videoUrl isPlaying fst snd].

(** Splits a world into its fields, so that the setters evaluate. *)
Ltac open_world w :=
  destruct w as [[? ? ? ? ? ?] ? ? ? ?];
  cbn [ui pending draws urls trace selectedFile isProcessing progress result
       videoUrl isPlaying] in *.

(** Brings nested appends to a common form. *)
Ltac lists := repeat rewrite <- app_assoc; cbn [app].

Section Proofs.

Variable pl : list Stage.
Variable random : nat -> Q.
Variable objectUrl : nat -> string.

Let n := List.length pl.

Lemma mockResult_eq (w : World) :
  mockResult random w =
    (mockAt random (draws w),
     mkWorld (ui w) (pending w) (5 + draws w) (urls w) (trace w)).
Proof. reflexivity. Qed.

Lemma finish_eq (w : World) :
  finish random w =
    mkWorld
      (mkState (selectedFile (ui w)) false (progress (ui w))
         (Some (mockAt random (draws w))) (videoUrl (ui w)) (isPlaying (ui w)))
      (pending w) (5 + draws w) (urls w)
      (trace w ++ finishEvents random (draws w)).
Proof.
  unfold finish. rewrite mockResult_eq. effects.
  rewrite <- !app_assoc. reflexivity.
Qed.

Lemma run_snoc (acts : list Action) (a : Action) (w : World) :
  run pl random objectUrl (acts ++ [a]) w =
    step pl random objectUrl a (run pl random objectUrl acts w).
Proof. unfold run. rewrite fold_left_app. reflexivity. Qed.

Lemma run_app (acts acts' : list Action) (w : World) :
  run pl random objectUrl (acts ++ acts') w =
    run pl random objectUrl acts' (run pl random objectUrl acts w).
Proof. unfold run. apply fold_left_app. Qed.

Lemma startAndFire_S (k : nat) :
  startAndFire (S k) = startAndFire k ++ [TimerFire 0].
Proof.
  unfold startAndFire. cbn [repeat]. rewrite repeat_cons. reflexivity.
Qed.

Lemma blocks_snoc (l : list Stage) :
  forall (a k : nat) (st : Stage),
    nth_error l k = Some st ->
    blocks pl a (firstn (S k) l) =
      blocks pl a (firstn k l) ++ stageBlock pl (a + k) st.
Proof.
  induction l as [|x l IH]; intros a k st H.
  - destruct k; discriminate.
  - destruct k as [|k].
    + injection H as ->. cbn. rewrite Nat.add_0_r. reflexivity.
    + cbn [nth_error] in H. rewrite !firstn_cons. cbn [blocks].
      rewrite (IH (S a) k st H), <- app_assoc.
      replace (S a + k)%nat with (a + S k)%nat by lia. reflexivity.
Qed.

Lemma nth_error_ltb (k : nat) :
  Nat.ltb k n = match nth_error pl k with Some _ => true | None => false end.
Proof.
  destruct (nth_error pl k) eqn:E.
  - apply Nat.ltb_lt. apply nth_error_Some. congruence.
  - apply Nat.ltb_ge. apply nth_error_None. exact E.
Qed.

(** The state reached by an uninterrupted run is the one [afterStages]
    describes. *)
Lemma run_afterStages (w0 : World) :
  ready w0 ->
  forall k, (k <= n)%nat ->
    run pl random objectUrl (startAndFire k) w0 = afterStages pl random w0 k.
Proof.
  intros (Hsel & Hproc & Hpend) k.
  induction k as [|k IH]; intros Hk.
  - destruct w0 as [[sf ip pr rs vu pp] p d ur tr]. cbn in Hsel, Hproc, Hpend.
    subst ip p. destruct sf as [f|]; [|congruence].
    unfold startAndFire, run. cbn [repeat fold_left step userStep].
    unfold clickStart. cbn [ui selectedFile isProcessing].
    unfold simulateMLProcessing, loopFrom, afterStages, runEvents, nextEvents.
    fold n. rewrite (nth_error_ltb 0).
    destruct (nth_error pl 0) eqn:E0.
    + effects. cbn. rewrite <- !app_assoc. reflexivity.
    + rewrite finish_eq. effects. cbn. rewrite <- !app_assoc. reflexivity.
  - rewrite startAndFire_S, run_snoc, IH by lia.
    assert (Hlt : Nat.ltb k n = true) by (apply Nat.ltb_lt; lia).
    unfold afterStages at 1. fold n. rewrite Hlt.
    cbn [step timerFire pending nth_error]. unfold resume, loopFrom.
    replace (k + 1)%nat with (S k) by lia.
    unfold afterStages, runEvents, nextEvents. fold n.
    rewrite (nth_error_ltb (S k)).
    assert (Hk' : exists st, nth_error pl k = Some st).
    { destruct (nth_error pl k) eqn:E; [eauto|].
      apply nth_error_None in E. fold n in E. lia. }
    destruct Hk' as [st Hst]. rewrite Hst.
    rewrite (blocks_snoc pl 0 k st Hst). cbn [Nat.add].
    destruct (nth_error pl (S k)) eqn:E1.
    + effects. unfold removeAt, stageBlock. cbn [firstn skipn lastProgress].
      lists. reflexivity.
    + rewrite finish_eq. effects. unfold removeAt, stageBlock.
      cbn [firstn skipn lastProgress Nat.add]. lists. reflexivity.
Qed.

(** *** Arithmetic of the progress values *)

Lemma stageCount_pos : pl <> [] -> 0 < inject_Z (Z.of_nat n).
Proof.
  intros H. replace 0 with (inject_Z 0) by reflexivity.
  rewrite <- Zlt_Qlt. subst n. destruct pl; [congruence|]. cbn [List.length]. lia.
Qed.

Lemma progressAt_le (i j : nat) :
  (i <= j)%nat -> progressAt pl i <= progressAt pl j.
Proof.
  intros H. unfold progressAt, Qdiv.
  apply Qmult_le_compat_r; [|discriminate].
  apply Qmult_le_compat_r.
  - rewrite <- Zle_Qle. lia.
  - apply Qinv_le_0_compat. replace 0 with (inject_Z 0) by reflexivity.
    rewrite <- Zle_Qle. lia.
Qed.

Lemma progressAt_nonneg (i : nat) : 0 <= progressAt pl i.
Proof.
  unfold progressAt, Qdiv.
  apply Qmult_le_0_compat; [|discriminate].
  apply Qmult_le_0_compat.
  - replace 0 with (inject_Z 0) by reflexivity. rewrite <- Zle_Qle. lia.
  - apply Qinv_le_0_compat. replace 0 with (inject_Z 0) by reflexivity.
    rewrite <- Zle_Qle. lia.
Qed.

Lemma progressAt_lt_100 (i : nat) :
  (i + 1 < n)%nat -> progressAt pl i < 100.
Proof.
  intros H. unfold progressAt. fold n.
  assert (Hn : 0 < inject_Z (Z.of_nat n)).
  { replace 0 with (inject_Z 0) by reflexivity. rewrite <- Zlt_Qlt. lia. }
  assert (Hq : inject_Z (Z.of_nat (i + 1)) / inject_Z (Z.of_nat n) < 1).
  { apply Qlt_shift_div_r; [exact Hn|]. rewrite Qmult_1_l.
    rewrite <- Zlt_Qlt. lia. }
  lra.
Qed.

Lemma progressAt_full (i : nat) :
  (i + 1 = n)%nat -> progressAt pl i == 100.
Proof.
  intros H. unfold progressAt. fold n. rewrite H.
  assert (Hn : 0 < inject_Z (Z.of_nat n)).
  { replace 0 with (inject_Z 0) by reflexivity. rewrite <- Zlt_Qlt. lia. }
  field. intros E. rewrite E in Hn. discriminate.
Qed.

Lemma lastProgress_lt_100 (k : nat) :
  pl <> [] -> (k < n)%nat -> lastProgress pl k < 100.
Proof.
  intros Hne H. destruct k as [|j]; cbn [lastProgress].
  - reflexivity.
  - apply progressAt_lt_100. lia.
Qed.

Lemma lastProgress_full : pl <> [] -> lastProgress pl n == 100.
Proof.
  intros Hne. destruct n as [|j] eqn:E.
  - subst n. destruct pl; [congruence|discriminate].
  - cbn [lastProgress]. apply progressAt_full. lia.
Qed.

(** *** Observations on the trace of a run *)

Lemma progressValues_app (tr tr' : list Event) :
  progressValues (tr ++ tr') = progressValues tr ++ progressValues tr'.
Proof.
  induction tr as [|e tr IH]; [reflexivity|].
  destruct e; cbn [app progressValues]; rewrite IH; reflexivity.
Qed.

Lemma progressValues_blocks (l : list Stage) :
  forall a, progressValues (blocks pl a l) = map (progressAt pl) (seq a (List.length l)).
Proof.
  induction l as [|st l IH]; intros a; [reflexivity|].
  cbn [blocks stageBlock app progressValues List.length seq map].
  rewrite IH. reflexivity.
Qed.

Lemma progressValues_nextEvents (d k : nat) :
  progressValues (nextEvents pl random d k) = [].
Proof. unfold nextEvents. destruct (nth_error pl k); reflexivity. Qed.

Lemma progressValues_runEvents (d k : nat) :
  (k <= n)%nat ->
  progressValues (runEvents pl random d k) = 0 :: map (progressAt pl) (seq 0 k).
Proof.
  intros Hk. unfold runEvents. cbn [app progressValues].
  rewrite progressValues_app, progressValues_blocks, progressValues_nextEvents.
  rewrite app_nil_r, length_firstn, Nat.min_l by exact Hk. reflexivity.
Qed.

Lemma eventsSince_afterStages (w0 : World) (k : nat) :
  eventsSince w0 (afterStages pl random w0 k) = runEvents pl random (draws w0) k.
Proof.
  unfold eventsSince, afterStages. cbn [trace].
  rewrite skipn_app, skipn_all, Nat.sub_diag. reflexivity.
Qed.

Lemma runState_afterStages (w0 : World) (k : nat) :
  runState (afterStages pl random w0 k) =
    if Nat.ltb k n then Running else Succeeded.
Proof.
  unfold runState, afterStages. cbn [ui isProcessing result]. fold n.
  destruct (Nat.ltb k n); reflexivity.
Qed.

Lemma nondecreasing_cons (a b : Q) (l : list Q) :
  nondecreasing (a :: b :: l) = Qle_bool a b && nondecreasing (b :: l).
Proof. reflexivity. Qed.

Lemma nondecreasing_progress (k : nat) :
  forall a, nondecreasing (map (progressAt pl) (seq a k)) = true.
Proof.
  induction k as [|k IH]; intros a; [reflexivity|].
  destruct k as [|k]; [reflexivity|].
  specialize (IH (S a)). cbn [seq map] in *. rewrite nondecreasing_cons.
  rewrite IH, andb_true_r. apply Qle_bool_iff. apply progressAt_le. lia.
Qed.

Lemma nondecreasing_from_zero (k : nat) :
  nondecreasing (0 :: map (progressAt pl) (seq 0 k)) = true.
Proof.
  destruct k as [|k]; [reflexivity|].
  pose proof (nondecreasing_progress (S k) 0) as H.
  cbn [seq map] in *. rewrite nondecreasing_cons. rewrite H, andb_true_r.
  apply Qle_bool_iff. apply progressAt_nonneg.
Qed.

Lemma last_progress (k : nat) :
  last (0 :: map (progressAt pl) (seq 0 k)) 0 = lastProgress pl k.
Proof.
  destruct k as [|k]; [reflexivity|].
  rewrite seq_S, map_app. cbn [map Nat.add].
  change (0 :: ?l ++ [?x]) with ((0 :: l) ++ [x]).
  apply last_last.
Qed.

Lemma nth_progress (k j : nat) :
  (j < k)%nat -> nth j (map (progressAt pl) (seq 0 k)) 0 = progressAt pl j.
Proof.
  intros H.
  rewrite (nth_indep _ 0 (progressAt pl 0)) by (rewrite length_map, length_seq; exact H).
  rewrite map_nth, seq_nth by exact H. reflexivity.
Qed.

(** In a run that no gesture interrupts, the reported progress values
    never decrease, the last one is exactly 100 if and only if the run has
    succeeded, and no earlier value is 100; a run succeeds exactly when its
    last stage has reported. *)
Theorem progress_nondecreasing_ends_at_100 (w0 : World) (k : nat) :
  pl <> [] -> ready w0 -> (k <= List.length pl)%nat ->
  let w := run pl random objectUrl (startAndFire k) w0 in
  let ps := progressValues (eventsSince w0 w) in
  nondecreasing ps = true /\
  progress (ui w) = last ps 0 /\
  (last ps 0 == 100 <-> runState w = Succeeded) /\
  (runState w = Succeeded <-> k = List.length pl) /\
  (forall j, (j + 1 < List.length ps)%nat -> nth j ps 0 < 100).
Proof.
  intros Hne Hready Hk. cbv zeta.
  rewrite (run_afterStages w0 Hready k Hk), eventsSince_afterStages.
  rewrite (progressValues_runEvents (draws w0) k Hk), last_progress.
  rewrite runState_afterStages. fold n in Hk |- *.
  split; [apply nondecreasing_from_zero|].
  split; [reflexivity|].
  destruct (Nat.ltb k n) eqn:E.
  - apply Nat.ltb_lt in E. repeat split.
    + intros H. pose proof (lastProgress_lt_100 k Hne E) as Hlt.
      rewrite H in Hlt. discriminate.
    + discriminate.
    + discriminate.
    + lia.
    + intros j Hj. cbn [List.length] in Hj. rewrite length_map, length_seq in Hj.
      destruct j as [|j]; [reflexivity|]. cbn [nth].
      rewrite nth_progress by lia. apply progressAt_lt_100. lia.
  - apply Nat.ltb_ge in E. assert (k = n) as -> by lia. repeat split.
    + intros _. apply lastProgress_full. exact Hne.
    + intros j Hj. cbn [List.length] in Hj. rewrite length_map, length_seq in Hj.
      destruct j as [|j]; [reflexivity|]. cbn [nth].
      rewrite nth_progress by lia. apply progressAt_lt_100. lia.
Qed.

(** *** Sequential execution *)

Lemma accept_app (tr tr' : list Event) :
  forall p, accept p (tr ++ tr') =
    match accept p tr with
    | Some p' => accept p' tr'
    | None => None
    end.
Proof.
  induction tr as [|e tr IH]; intros p; [reflexivity|].
  cbn [app accept]. destruct (advance p e); [apply IH|reflexivity].
Qed.

Lemma accept_blocks (l : list Stage) :
  forall a, accept (Between a) (blocks pl a l) = Some (Between (a + List.length l)).
Proof.
  induction l as [|st l IH]; intros a.
  - cbn. rewrite Nat.add_0_r. reflexivity.
  - cbn [blocks stageBlock app accept advance]. rewrite !Nat.eqb_refl.
    rewrite IH. cbn [List.length]. f_equal. f_equal. lia.
Qed.

Lemma accept_nextEvents (d k : nat) :
  accept (Between k) (nextEvents pl random d k) =
    Some (if Nat.ltb k n then InFlight k else Between k).
Proof.
  unfold nextEvents. rewrite nth_error_ltb.
  destruct (nth_error pl k).
  - cbn [accept advance]. rewrite Nat.eqb_refl. reflexivity.
  - reflexivity.
Qed.

Lemma accept_runEvents (d k : nat) :
  (k <= n)%nat ->
  accept Starting (runEvents pl random d k) =
    Some (if Nat.ltb k n then InFlight k else Between k).
Proof.
  intros Hk. unfold runEvents. cbn [app accept advance].
  change (Qeq_bool 0 0) with true. cbv iota.
  rewrite accept_app, accept_blocks, length_firstn, Nat.min_l by exact Hk.
  apply accept_nextEvents.
Qed.

(** *** What each handler leaves untouched *)

Lemma handleFileSelect_rejects (file : File.t) (w : World) :
  startsWith (File.type file) "video/" = false ->
  handleFileSelect objectUrl file w =
    mkWorld (ui w) (pending w) (draws w) (urls w)
      (trace w ++ [EvToast (mkToast "Invalid File Type"
                              "Please select a video file." Destructive)]).
Proof. intros H. unfold handleFileSelect. rewrite H. reflexivity. Qed.

Lemma handleFileSelect_accepts (file : File.t) (w : World) :
  startsWith (File.type file) "video/" = true ->
  handleFileSelect objectUrl file w =
    mkWorld
      (mkState (Some file) (isProcessing (ui w)) 0 None
         (Some (objectUrl (urls w))) (isPlaying (ui w)))
      (pending w) (draws w) (S (urls w))
      (trace w ++
         [ EvSetSelectedFile file; EvSetResult None; EvSetProgress 0;
           EvSetVideoUrl (objectUrl (urls w));
           EvToast (mkToast "Video Loaded"
                      ("Ready to analyze: " ++ File.name file)%string Default) ]).
Proof.
  intros H. unfold handleFileSelect, createObjectURL. rewrite H.
  cbn [negb]. open_world w. effects. lists. reflexivity.
Qed.

(** A file selection never touches the suspended runs, the processing
    flag or the random draws; it keeps the stored result or clears it. *)
Lemma handleFileSelect_frame (file : File.t) (w : World) :
  let w' := handleFileSelect objectUrl file w in
  pending w' = pending w /\
  isProcessing (ui w') = isProcessing (ui w) /\
  (result (ui w') = result (ui w) \/ result (ui w') = None).
Proof.
  cbv zeta. destruct (startsWith (File.type file) "video/") eqn:E.
  - rewrite handleFileSelect_accepts by exact E. cbn. auto.
  - rewrite handleFileSelect_rejects by exact E. cbn. auto.
Qed.

Lemma togglePlayPause_frame (w : World) :
  let w' := togglePlayPause w in
  pending w' = pending w /\
  isProcessing (ui w') = isProcessing (ui w) /\
  result (ui w') = result (ui w).
Proof.
  cbv zeta. unfold togglePlayPause. open_world w.
  match goal with |- context [match ?v with Some _ => _ | None => _ end] =>
    destruct v end; effects; auto.
Qed.

Lemma loopFrom_cases (i : nat) (w : World) :
  (exists st, nth_error pl i = Some st /\ (i < n)%nat /\
     loopFrom pl random i w =
       mkWorld (ui w) (pending w ++ [i]) (draws w) (urls w)
         (trace w ++ [EvSetTimeout i (duration st)])) \/
  ((n <= i)%nat /\ loopFrom pl random i w = finish random w).
Proof.
  unfold loopFrom. destruct (nth_error pl i) as [st|] eqn:E.
  - left. exists st. repeat split.
    apply nth_error_Some. congruence.
  - right. split; [|reflexivity]. apply nth_error_None. exact E.
Qed.

(** While a run is in progress, no user gesture changes the suspended
    runs or the processing flag. *)
Lemma userStep_while_processing (u : UserAction) (w : World) :
  isProcessing (ui w) = true ->
  pending (userStep pl random objectUrl u w) = pending w /\
  isProcessing (ui (userStep pl random objectUrl u w)) = true.
Proof.
  intros H. destruct u as [files|files| |]; cbn [userStep].
  - destruct files as [|file files]; cbn [handleDrop]; [auto|].
    pose proof (handleFileSelect_frame file w) as (Hp & Hi & _).
    rewrite Hp, Hi. auto.
  - destruct files as [[|file files]|]; cbn [handleFileInput]; [auto| |auto].
    pose proof (handleFileSelect_frame file w) as (Hp & Hi & _).
    rewrite Hp, Hi. auto.
  - unfold clickStart. destruct (selectedFile (ui w)); [rewrite H|]; auto.
  - pose proof (togglePlayPause_frame w) as (Hp & Hi & _).
    rewrite Hp, Hi. auto.
Qed.

Lemma userSteps_while_processing (us : list UserAction) :
  forall w, isProcessing (ui w) = true ->
    pending (run pl random objectUrl (map User us) w) = pending w /\
    isProcessing (ui (run pl random objectUrl (map User us) w)) = true.
Proof.
  induction us as [|u us IH]; intros w H; [cbn; auto|].
  cbn [map]. change (run pl random objectUrl (User u :: map User us) w)
    with (run pl random objectUrl (map User us) (userStep pl random objectUrl u w)).
  destruct (userStep_while_processing u w H) as [Hp Hi].
  destruct (IH _ Hi) as [Hp' Hi']. rewrite Hp', Hp. auto.
Qed.

(** *** At most one run at a time *)

Lemma simulateMLProcessing_oneRun (w : World) :
  pending w = [] -> oneRun pl (simulateMLProcessing pl random w).
Proof.
  intros Hp. unfold simulateMLProcessing.
  destruct (loopFrom_cases 0 (setProgress 0 (setIsProcessing true w)))
    as [(st & _ & Hlt & ->)|(_ & ->)].
  - right. open_world w. subst. effects. split; [reflexivity|].
    exists 0%nat. auto.
  - left. rewrite finish_eq. open_world w. subst. effects. auto.
Qed.

Lemma timerFire_oneRun (j : nat) (w : World) :
  oneRun pl w -> oneRun pl (timerFire pl random j w).
Proof.
  intros H. unfold timerFire.
  destruct H as [(Hi & Hp)|(Hi & i & Hp & Hlt)]; rewrite Hp.
  - destruct j; cbn [nth_error]; left; auto.
  - destruct j as [|j]; cbn [nth_error].
    + unfold resume, removeAt. cbn [firstn skipn app].
      match goal with |- oneRun pl (loopFrom _ _ _ ?w') =>
        destruct (loopFrom_cases (i + 1) w') as [(st & _ & Hlt' & ->)|(_ & ->)]
      end.
      * right. open_world w. subst. effects. split; [reflexivity|].
        exists (i + 1)%nat. auto.
      * left. rewrite finish_eq. open_world w. subst. effects. auto.
    + destruct j; cbn [nth_error]; right; eauto.
Qed.

Lemma step_oneRun (a : Action) (w : World) :
  oneRun pl w -> oneRun pl (step pl random objectUrl a w).
Proof.
  intros H. destruct a as [u|j]; [|apply timerFire_oneRun; exact H].
  cbn [step].
  destruct (isProcessing (ui w)) eqn:Hi.
  - destruct (userStep_while_processing u w Hi) as [Hp' Hi'].
    destruct H as [(Hc & _)|(_ & i & Hp & Hlt)]; [congruence|].
    right. rewrite Hp', Hi'. eauto.
  - destruct H as [(_ & Hp)|(Hc & _)]; [|congruence].
    destruct u as [files|files| |]; cbn [userStep].
    + destruct files as [|file files]; cbn [handleDrop]; [left; auto|].
      pose proof (handleFileSelect_frame file w) as (Hp' & Hi' & _).
      left. rewrite Hp', Hi'. auto.
    + destruct files as [[|file files]|]; cbn [handleFileInput];
        [left; auto| |left; auto].
      pose proof (handleFileSelect_frame file w) as (Hp' & Hi' & _).
      left. rewrite Hp', Hi'. auto.
    + unfold clickStart. destruct (selectedFile (ui w)); [|left; auto].
      rewrite Hi. apply simulateMLProcessing_oneRun. exact Hp.
    + pose proof (togglePlayPause_frame w) as (Hp' & Hi' & _).
      left. rewrite Hp', Hi'. auto.
Qed.

Lemma run_oneRun (acts : list Action) :
  forall w, oneRun pl w -> oneRun pl (run pl random objectUrl acts w).
Proof.
  induction acts as [|a acts IH]; intros w H; [exact H|].
  apply (IH (step pl random objectUrl a w)). apply step_oneRun. exact H.
Qed.

Lemma init_oneRun : oneRun pl init.
Proof. left. auto. Qed.

(** *** The stored result *)

Lemma mockAt_bounds (d : nat) :
  (forall i, 0 <= random i /\ random i < 1) -> resultBounds (mockAt random d).
Proof.
  intros H.
  pose proof (H (S d)) as H1. pose proof (H (S (S d))) as H2.
  pose proof (H (S (S (S d)))) as H3. pose proof (H (S (S (S (S d))))) as H4.
  unfold resultBounds, inUnit, subScores, mockAt.
  cbn [confidence details processingTime faceAnalysis temporalConsistency
       artifactDetection].
  split; [lra|]. split; [|discriminate].
  repeat constructor; lra.
Qed.

(** A step keeps the stored result, clears it, or stores a freshly drawn
    one. *)
Lemma loopFrom_result (i : nat) (w : World) :
  result (ui (loopFrom pl random i w)) = result (ui w) \/
  exists d, result (ui (loopFrom pl random i w)) = Some (mockAt random d).
Proof.
  destruct (loopFrom_cases i w) as [(st & _ & _ & ->)|(_ & ->)].
  - left. reflexivity.
  - right. rewrite finish_eq. eexists. reflexivity.
Qed.

Lemma step_result (a : Action) (w : World) :
  let w' := step pl random objectUrl a w in
  result (ui w') = result (ui w) \/ result (ui w') = None \/
  exists d, result (ui w') = Some (mockAt random d).
Proof.
  cbv zeta. destruct a as [[files|files| |]|j]; cbn [step userStep].
  - destruct files as [|file files]; cbn [handleDrop]; [auto|].
    destruct (handleFileSelect_frame file w) as (_ & _ & [H|H]); auto.
  - destruct files as [[|file files]|]; cbn [handleFileInput]; [auto| |auto].
    destruct (handleFileSelect_frame file w) as (_ & _ & [H|H]); auto.
  - unfold clickStart. destruct (selectedFile (ui w)); [|auto].
    destruct (isProcessing (ui w)); [auto|]. unfold simulateMLProcessing.
    match goal with |- context [loopFrom _ _ ?i ?w'] =>
      destruct (loopFrom_result i w') as [H|H]
    end; [left|auto].
    rewrite H. open_world w. reflexivity.
  - destruct (togglePlayPause_frame w) as (_ & _ & H). auto.
  - unfold timerFire. destruct (nth_error (pending w) j) as [i|]; [|auto].
    unfold resume.
    match goal with |- context [loopFrom _ _ ?i ?w'] =>
      destruct (loopFrom_result i w') as [H|H]
    end; [left|auto].
    rewrite H. open_world w. reflexivity.
Qed.

(** C8: whatever the user does and whenever the timers fire, a stored
    result has its confidence and its three sub-scores in [[0,1]] and a
    non-negative processing time, provided [Math.random] returns values
    in [[0,1)]. *)
Theorem result_within_bounds (acts : list Action) (r : DetectionResult) :
  (forall i, 0 <= random i /\ random i < 1) ->
  result (ui (run pl random objectUrl acts init)) = Some r ->
  resultBounds r.
Proof.
  intros Hrand.
  assert (Hinv : forall acts w,
    (forall r, result (ui w) = Some r -> resultBounds r) ->
    forall r, result (ui (run pl random objectUrl acts w)) = Some r ->
              resultBounds r).
  { clear acts r. induction acts as [|a acts IH]; intros w Hw r; [apply Hw|].
    apply (IH (step pl random objectUrl a w)).
    intros r' Hr'.
    destruct (step_result a w) as [H|[H|(d & H)]]; rewrite H in Hr'.
    - apply Hw. exact Hr'.
    - discriminate.
    - injection Hr' as <-. apply mockAt_bounds. exact Hrand. }
  apply (Hinv acts init). intros r' Hr'. discriminate.
Qed.

(** C4, as the source has it: the result of a successful run is drawn at
    random. The classification is true exactly when the run's first draw
    exceeds 0.6, the confidence is 0.75 plus 0.24 times the second draw,
    and the three sub-scores come from the third, fourth and fifth draw;
    classification and confidence are not computed from the sub-scores. *)
Theorem result_is_drawn_at_random (w0 : World) :
  ready w0 ->
  let w := run pl random objectUrl (startAndFire (List.length pl)) w0 in
  let d := draws w0 in
  exists r, result (ui w) = Some r /\ runState w = Succeeded /\
    (isDeepfake r = true <-> 0.6 < random d) /\
    confidence r = 0.75 + random (1 + d) * 0.24 /\
    subScores r = [ 0.82 + random (2 + d) * 0.17;
                    0.78 + random (3 + d) * 0.21;
                    0.73 + random (4 + d) * 0.26 ] /\
    processingTime r = 4.6.
Proof.
  intros Hready. cbv zeta.
  rewrite (run_afterStages w0 Hready (List.length pl) (Nat.le_refl _)).
  rewrite runState_afterStages. unfold afterStages. fold n.
  rewrite Nat.ltb_irrefl. cbn [ui result].
  exists (mockAt random (draws w0)). repeat split.
  - unfold mockAt, gt. cbn [isDeepfake]. intros H.
    apply negb_true_iff in H. apply Qnot_le_lt. intros Hle.
    apply Qle_bool_iff in Hle. congruence.
  - unfold mockAt, gt. cbn [isDeepfake]. intros H.
    apply negb_true_iff. destruct (Qle_bool (random (draws w0)) 0.6) eqn:E;
      [|reflexivity].
    apply Qle_bool_iff in E. exfalso. apply (Qlt_not_le _ _ H). exact E.
Qed.

(** *** Rejected files *)

(** C10: a file whose media type does not start with "video/" leaves
    every state slot as it was; the only effect is the toast. *)
Theorem rejected_file_changes_no_state (file : File.t) (w : World) :
  startsWith (File.type file) "video/" = false ->
  let w' := handleFileSelect objectUrl file w in
  ui w' = ui w /\
  selectedFile (ui w') = selectedFile (ui w) /\
  result (ui w') = result (ui w) /\
  progress (ui w') = progress (ui w) /\
  videoUrl (ui w') = videoUrl (ui w) /\
  pending w' = pending w /\ draws w' = draws w /\ urls w' = urls w /\
  trace w' = trace w ++ [EvToast (mkToast "Invalid File Type"
                                    "Please select a video file." Destructive)].
Proof.
  intros H. cbv zeta. rewrite (handleFileSelect_rejects file w H).
  cbn [ui pending draws urls trace]. repeat split.
Qed.

(** An accepted file clears the stored result and the progress value. *)
Lemma handleFileSelect_clears (file : File.t) (w : World) :
  startsWith (File.type file) "video/" = true ->
  let w' := handleFileSelect objectUrl file w in
  selectedFile (ui w') = Some file /\ result (ui w') = None /\
  progress (ui w') = 0.
Proof.
  intros H. cbv zeta. rewrite (handleFileSelect_accepts file w H).
  cbn [ui selectedFile result progress]. repeat split.
Qed.

(** *** Starting and stopping *)

Lemma runState_running (w : World) :
  runState w = Running <-> isProcessing (ui w) = true.
Proof.
  unfold runState. destruct (isProcessing (ui w)), (result (ui w));
    split; intros H; try reflexivity; discriminate.
Qed.

(** C5, as the source has it: while a run is in progress a click on the
    start button does nothing at all, and raises nothing, because the
    button is disabled; so at most one execution is ever suspended. In
    any other state in which a file is selected, before a first run or
    after a successful one, the click begins a run. *)
Theorem start_ignored_while_running (acts : list Action) :
  let w := run pl random objectUrl acts init in
  (runState w = Running ->
     dispatch pl random objectUrl (User ClickStart) w = inr w) /\
  (List.length (pending w) <= 1)%nat /\
  (runState w = Running <-> pending w <> []) /\
  (runState w <> Running -> selectedFile (ui w) <> None -> pl <> [] ->
     runState (step pl random objectUrl (User ClickStart) w) = Running /\
     pending (step pl random objectUrl (User ClickStart) w) = [0%nat]).
Proof.
  cbv zeta. pose proof (run_oneRun acts init init_oneRun) as Hinv.
  set (w := run pl random objectUrl acts init) in *. clearbody w.
  split; [|split; [|split]].
  - intros H. apply runState_running in H. unfold dispatch.
    cbn [step userStep]. unfold clickStart.
    destruct (selectedFile (ui w)); [rewrite H|]; reflexivity.
  - destruct Hinv as [(_ & ->)|(_ & i & -> & _)]; cbn; lia.
  - rewrite runState_running.
    destruct Hinv as [(Hi & ->)|(Hi & i & -> & _)]; rewrite Hi; split;
      intros H; congruence.
  - intros Hrun Hsel Hne. rewrite runState_running in *.
    destruct Hinv as [(Hi & Hp)|(Hi & _)]; [|congruence].
    cbn [step userStep]. unfold clickStart.
    destruct (selectedFile (ui w)); [|congruence]. rewrite Hi.
    unfold simulateMLProcessing.
    match goal with |- context [loopFrom _ _ ?i ?w'] =>
      destruct (loopFrom_cases i w') as [(st & _ & _ & ->)|(Hle & _)]
    end.
    + open_world w. subst. effects. auto.
    + destruct pl; [congruence|]. cbn in Hle. lia.
Qed.

(** When the timer of the stage in flight fires, the stage reports and
    the next one starts in the same step; after the last stage the run
    finishes instead. *)
Lemma timerFire_inflight (w : World) (k : nat) :
  pending w = [k] ->
  match nth_error pl (k + 1) with
  | Some st =>
      timerFire pl random 0 w =
        mkWorld
          (mkState (selectedFile (ui w)) (isProcessing (ui w)) (progressAt pl k)
             (result (ui w)) (videoUrl (ui w)) (isPlaying (ui w)))
          [(k + 1)%nat] (draws w) (urls w)
          (trace w ++ [ EvResolved k; EvSetProgress (progressAt pl k);
                        EvSetTimeout (k + 1) (duration st) ])
  | None =>
      timerFire pl random 0 w =
        mkWorld
          (mkState (selectedFile (ui w)) false (progressAt pl k)
             (Some (mockAt random (draws w))) (videoUrl (ui w)) (isPlaying (ui w)))
          [] (5 + draws w) (urls w)
          (trace w ++ [EvResolved k; EvSetProgress (progressAt pl k)]
             ++ finishEvents random (draws w))
  end.
Proof.
  intros Hp. unfold timerFire, resume, loopFrom, removeAt. rewrite Hp.
  cbn [nth_error firstn skipn app].
  destruct (nth_error pl (k + 1)) as [st|].
  - open_world w. effects. lists. reflexivity.
  - rewrite finish_eq. open_world w. effects. lists. reflexivity.
Qed.

(** Gestures between the timer firings change nothing in the course of
    the run: after the firing that settles stage [j] the progress value is
    the one of stage [j], and either the next stage is in flight or the
    run has succeeded. *)
Lemma interleave_advances (uss : list (list UserAction)) :
  forall (w : World) (k : nat),
    isProcessing (ui w) = true -> pending w = [k] ->
    (k + List.length uss <= n)%nat -> uss <> [] ->
    let w' := run pl random objectUrl (interleave uss) w in
    progress (ui w') = progressAt pl (k + List.length uss - 1) /\
    if Nat.ltb (k + List.length uss) n
    then pending w' = [(k + List.length uss)%nat] /\ runState w' = Running
    else pending w' = [] /\ runState w' = Succeeded.
Proof.
  induction uss as [|us uss IH]; intros w k Hi Hp Hlen Hne; [congruence|].
  cbv zeta. unfold interleave. cbn [flat_map]. rewrite <- app_assoc, !run_app.
  fold (interleave uss).
  destruct (userSteps_while_processing us w Hi) as [Hp1 Hi1].
  rewrite Hp in Hp1.
  set (w1 := run pl random objectUrl (map User us) w) in *. clearbody w1.
  change (run pl random objectUrl [TimerFire 0] w1)
    with (timerFire pl random 0 w1).
  pose proof (timerFire_inflight w1 k Hp1) as Hfire.
  cbn [List.length] in Hlen |- *.
  destruct (nth_error pl (k + 1)) as [st|] eqn:E.
  - assert (Hlt : (k + 1 < n)%nat) by (apply nth_error_Some; congruence).
    rewrite Hfire. destruct uss as [|us' uss].
    + cbn [interleave flat_map run fold_left List.length ui progress pending].
      replace (k + 1 - 1)%nat with k by lia.
      split; [reflexivity|].
      replace (Nat.ltb (k + 1) n) with true by (symmetry; apply Nat.ltb_lt; lia).
      split; [reflexivity|]. apply runState_running. exact Hi1.
    + match goal with |- context [run _ _ _ _ ?w2] =>
        pose proof (IH w2 (k + 1)%nat) as IH'
      end.
      cbv zeta in IH'. cbn [ui isProcessing pending] in IH'.
      replace (k + S (List.length (us' :: uss)))%nat
        with (k + 1 + List.length (us' :: uss))%nat by lia.
      apply IH'; [exact Hi1|reflexivity|cbn [List.length] in *; lia|discriminate].
  - apply nth_error_None in E. fold n in E.
    destruct uss; [|cbn in Hlen; lia].
    rewrite Hfire.
    cbn [interleave flat_map run fold_left List.length ui progress pending].
    replace (k + 1 - 1)%nat with k by lia.
    split; [reflexivity|].
    replace (Nat.ltb (k + 1) n) with false by (symmetry; apply Nat.ltb_ge; lia).
    split; reflexivity.
Qed.

Lemma interleave_completes (uss : list (list UserAction)) (w : World) (k : nat) :
  isProcessing (ui w) = true -> pending w = [k] ->
  (k + List.length uss = n)%nat -> uss <> [] ->
  runState (run pl random objectUrl (interleave uss) w) = Succeeded /\
  pending (run pl random objectUrl (interleave uss) w) = [].
Proof.
  intros Hi Hp Hlen Hne.
  assert (Hle : (k + List.length uss <= n)%nat) by lia.
  destruct (interleave_advances uss w k Hi Hp Hle Hne) as [_ H].
  rewrite Hlen, Nat.ltb_irrefl in H. destruct H as [H1 H2]. auto.
Qed.

(** C6, as the source has it: there is nothing to cancel a run with.
    Whatever the user does while stage [k] is in flight, the stage stays
    in flight and the run stays in progress; when the stage settles, its
    progress update is followed at once by the timer of stage [k+1]; and
    the run goes on to succeed, however gestures and timers interleave. *)
Theorem run_cannot_be_cancelled (w : World) (k : nat) (st : Stage) :
  isProcessing (ui w) = true -> pending w = [k] ->
  nth_error pl (k + 1) = Some st ->
  (forall us : list UserAction,
     let w1 := run pl random objectUrl (map User us) w in
     pending w1 = [k] /\ runState w1 = Running /\
     let w2 := step pl random objectUrl (TimerFire 0) w1 in
     trace w2 = trace w1 ++ [ EvResolved k; EvSetProgress (progressAt pl k);
                              EvSetTimeout (k + 1) (duration st) ] /\
     pending w2 = [(k + 1)%nat] /\ runState w2 = Running) /\
  (forall uss : list (list UserAction),
     (k + List.length uss = List.length pl)%nat ->
     runState (run pl random objectUrl (interleave uss) w) = Succeeded).
Proof.
  intros Hi Hp Hst. split.
  - intros us. cbv zeta.
    destruct (userSteps_while_processing us w Hi) as [Hp1 Hi1].
    rewrite Hp in Hp1.
    set (w1 := run pl random objectUrl (map User us) w) in *. clearbody w1.
    split; [exact Hp1|]. split; [apply runState_running; exact Hi1|].
    cbn [step]. pose proof (timerFire_inflight w1 k Hp1) as Hfire.
    rewrite Hst in Hfire. rewrite Hfire. cbn [trace pending].
    split; [reflexivity|]. split; [reflexivity|].
    apply runState_running. exact Hi1.
  - intros uss Hlen. apply (interleave_completes uss w k Hi Hp Hlen).
    assert ((k + 1 < n)%nat) by (apply nth_error_Some; congruence).
    destruct uss; [cbn in Hlen; fold n in Hlen; lia|discriminate].
Qed.


(** *** Every step, case by case *)

(** From a state with at most one suspended run, a step does nothing, or
    is a call of [handleFileSelect], or starts a run, or toggles the
    playback flag, or resumes the suspended run. *)
Lemma step_cases (a : Action) (w : World) :
  oneRun pl w ->
  let w' := step pl random objectUrl a w in
  (w' = w /\ offeredFile a = None) \/
  (exists f, offeredFile a = Some f /\ w' = handleFileSelect objectUrl f w) \/
  (a = User ClickStart /\ ready w /\ w' = afterStages pl random w 0) \/
  (a = User ClickPlayPause /\ videoUrl (ui w) <> None /\
     w' = mkWorld
            (mkState (selectedFile (ui w)) (isProcessing (ui w)) (progress (ui w))
               (result (ui w)) (videoUrl (ui w)) (negb (isPlaying (ui w))))
            (pending w) (draws w) (urls w)
            (trace w ++ [EvSetIsPlaying (negb (isPlaying (ui w)))])) \/
  (exists k st, a = TimerFire 0 /\ pending w = [k] /\
     isProcessing (ui w) = true /\ nth_error pl (k + 1) = Some st /\
     w' = mkWorld
            (mkState (selectedFile (ui w)) true (progressAt pl k)
               (result (ui w)) (videoUrl (ui w)) (isPlaying (ui w)))
            [(k + 1)%nat] (draws w) (urls w)
            (trace w ++ [ EvResolved k; EvSetProgress (progressAt pl k);
                          EvSetTimeout (k + 1) (duration st) ])) \/
  (exists k, a = TimerFire 0 /\ pending w = [k] /\
     isProcessing (ui w) = true /\ (k + 1 = n)%nat /\
     w' = mkWorld
            (mkState (selectedFile (ui w)) false (progressAt pl k)
               (Some (mockAt random (draws w))) (videoUrl (ui w))
               (isPlaying (ui w)))
            [] (5 + draws w) (urls w)
            (trace w ++ [EvResolved k; EvSetProgress (progressAt pl k)]
               ++ finishEvents random (draws w))).
Proof.
  intros Hone. cbv zeta. destruct a as [[files|files| |]|j]; cbn [step userStep].
  - destruct files as [|f files]; cbn [handleDrop]; [left; auto|].
    right. left. exists f. auto.
  - destruct files as [[|f files]|]; cbn [handleFileInput];
      [left; auto| |left; auto].
    right. left. exists f. auto.
  - unfold clickStart. destruct (selectedFile (ui w)) as [f|] eqn:Es;
      [|left; auto].
    destruct (isProcessing (ui w)) eqn:Ei; [left; auto|].
    right. right. left. split; [reflexivity|].
    assert (Hready : ready w).
    { unfold ready. rewrite Es, Ei.
      destruct Hone as [(_ & Hp)|(Hc & _)]; [|congruence].
      repeat split; [discriminate|exact Hp]. }
    split; [exact Hready|].
    pose proof (run_afterStages w Hready 0 (Nat.le_0_l _)) as H.
    unfold startAndFire, run in H. cbn [repeat fold_left step userStep] in H.
    unfold clickStart in H. rewrite Es, Ei in H. exact H.
  - unfold togglePlayPause. destruct (videoUrl (ui w)) as [u|] eqn:Ev;
      [|left; auto].
    right. right. right. left. split; [reflexivity|].
    split; [discriminate|]. open_world w. subst. effects. reflexivity.
  - destruct Hone as [(Hi & Hp)|(Hi & k & Hp & Hlt)].
    + left. unfold timerFire. rewrite Hp. destruct j; auto.
    + destruct j as [|j].
      * pose proof (timerFire_inflight w k Hp) as Hfire.
        destruct (nth_error pl (k + 1)) as [st|] eqn:E.
        -- right. right. right. right. left. exists k, st.
           rewrite Hfire, Hi. auto.
        -- right. right. right. right. right. exists k.
           apply nth_error_None in E. fold n in E.
           rewrite Hfire. repeat split; auto. fold n in Hlt. lia.
      * left. unfold timerFire. rewrite Hp. destruct j; auto.
Qed.

(** *** Invariants over every history *)

Lemma step_selectionConsistent (a : Action) (w : World) :
  oneRun pl w -> selectionConsistent w ->
  selectionConsistent (step pl random objectUrl a w).
Proof.
  intros Hone H.
  destruct (step_cases a w Hone)
    as [(-> & _)|[(f & _ & ->)|[(_ & Hr & ->)|[(_ & Hv & ->)|
        [(k & st & _ & Hp & _ & _ & ->)|(k & _ & Hp & _ & _ & ->)]]]]];
    [exact H| | | | |].
  - destruct (isVideo f) eqn:E; unfold isVideo in E.
    + rewrite (handleFileSelect_accepts f w E). unfold selectionConsistent.
      cbn [ui selectedFile videoUrl]. split; [exact E|discriminate].
    + rewrite (handleFileSelect_rejects f w E). exact H.
  - destruct Hr as (Hs & _ & _). unfold selectionConsistent, afterStages in *.
    cbn [ui selectedFile videoUrl]. destruct (selectedFile (ui w)); [exact H|congruence].
  - unfold selectionConsistent in *. cbn [ui selectedFile videoUrl].
    destruct (selectedFile (ui w)); [exact H|]. destruct H as (H & _). congruence.
  - unfold selectionConsistent in *. cbn [ui selectedFile videoUrl].
    destruct (selectedFile (ui w)); [exact H|].
    destruct H as (_ & _ & _ & _ & H). congruence.
  - unfold selectionConsistent in *. cbn [ui selectedFile videoUrl].
    destruct (selectedFile (ui w)); [exact H|].
    destruct H as (_ & _ & _ & _ & H). congruence.
Qed.

Lemma progressAt_le_100 (k : nat) : (k < n)%nat -> progressAt pl k <= 100.
Proof.
  intros H. destruct (Nat.eq_dec (k + 1) n) as [E|E].
  - rewrite (progressAt_full k E). apply Qle_refl.
  - apply Qlt_le_weak. apply progressAt_lt_100. lia.
Qed.

Lemma step_progressInRange (a : Action) (w : World) :
  oneRun pl w -> progressInRange w ->
  progressInRange (step pl random objectUrl a w).
Proof.
  intros Hone H.
  destruct (step_cases a w Hone)
    as [(-> & _)|[(f & _ & ->)|[(_ & Hr & ->)|[(_ & Hv & ->)|
        [(k & st & _ & Hp & _ & Hst & ->)|(k & _ & Hp & _ & Hk & ->)]]]]];
    [exact H| | | | |].
  - destruct (isVideo f) eqn:E; unfold isVideo in E.
    + rewrite (handleFileSelect_accepts f w E). unfold progressInRange.
      cbn [ui progress isProcessing]. repeat split; discriminate.
    + rewrite (handleFileSelect_rejects f w E). exact H.
  - unfold progressInRange, afterStages. cbn [ui progress isProcessing lastProgress].
    repeat split; discriminate.
  - exact H.
  - assert (Hlt : (k + 1 < n)%nat) by (apply nth_error_Some; congruence).
    unfold progressInRange. cbn [ui progress isProcessing].
    split; [split|].
    + apply progressAt_nonneg.
    + apply Qlt_le_weak. apply progressAt_lt_100. exact Hlt.
    + intros _. apply progressAt_lt_100. exact Hlt.
  - unfold progressInRange. cbn [ui progress isProcessing].
    split; [split|].
    + apply progressAt_nonneg.
    + apply progressAt_le_100. lia.
    + discriminate.
Qed.

Lemma step_previewIsLatest (a : Action) (w : World) :
  oneRun pl w -> previewIsLatest objectUrl w ->
  previewIsLatest objectUrl (step pl random objectUrl a w).
Proof.
  intros Hone H.
  destruct (step_cases a w Hone)
    as [(-> & _)|[(f & _ & ->)|[(_ & Hr & ->)|[(_ & Hv & ->)|
        [(k & st & _ & _ & _ & _ & ->)|(k & _ & _ & _ & _ & ->)]]]]];
    try exact H.
  destruct (isVideo f) eqn:E; unfold isVideo in E.
  - rewrite (handleFileSelect_accepts f w E). reflexivity.
  - rewrite (handleFileSelect_rejects f w E). exact H.
Qed.

Lemma step_urls (a : Action) (w : World) :
  oneRun pl w ->
  urls (step pl random objectUrl a w) =
    (urls w + if selectsVideo a then 1 else 0)%nat.
Proof.
  intros Hone. unfold selectsVideo.
  destruct (step_cases a w Hone)
    as [(-> & ->)|[(f & -> & ->)|[(-> & Hr & ->)|[(-> & Hv & ->)|
        [(k & st & -> & _ & _ & _ & ->)|(k & -> & _ & _ & _ & ->)]]]]];
    cbn [offeredFile urls afterStages]; try lia.
  destruct (isVideo f) eqn:E; unfold isVideo in E.
  - rewrite (handleFileSelect_accepts f w E). cbn [urls]. lia.
  - rewrite (handleFileSelect_rejects f w E). cbn [urls]. lia.
Qed.

(** The invariants hold after every history of gestures and timer
    firings. *)
Lemma history_invariants (acts : list Action) :
  forall w,
    oneRun pl w -> selectionConsistent w -> progressInRange w ->
    previewIsLatest objectUrl w ->
    let w' := run pl random objectUrl acts w in
    oneRun pl w' /\ selectionConsistent w' /\ progressInRange w' /\
    previewIsLatest objectUrl w' /\
    urls w' = (urls w + List.length (filter selectsVideo acts))%nat.
Proof.
  induction acts as [|a acts IH]; intros w H1 H2 H3 H4; cbv zeta.
  - change (run pl random objectUrl [] w) with w. cbn [filter List.length].
    rewrite Nat.add_0_r. auto 10.
  - change (run pl random objectUrl (a :: acts) w)
      with (run pl random objectUrl acts (step pl random objectUrl a w)).
    destruct (IH (step pl random objectUrl a w)
                (step_oneRun a w H1) (step_selectionConsistent a w H1 H2)
                (step_progressInRange a w H1 H3)
                (step_previewIsLatest a w H1 H4))
      as (I1 & I2 & I3 & I4 & I5).
    split; [exact I1|]. split; [exact I2|]. split; [exact I3|].
    split; [exact I4|].
    rewrite I5, (step_urls a w H1). cbn [filter].
    destruct (selectsVideo a); cbn [List.length]; lia.
Qed.

Lemma init_invariants :
  selectionConsistent init /\ progressInRange init /\ previewIsLatest objectUrl init.
Proof.
  unfold selectionConsistent, progressInRange, previewIsLatest. cbn.
  repeat split; discriminate.
Qed.

(** *** What holds in every reachable state *)

Lemma reachable_invariants (acts : list Action) :
  let w := run pl random objectUrl acts init in
  oneRun pl w /\ selectionConsistent w /\ progressInRange w /\
  previewIsLatest objectUrl w /\
  urls w = List.length (filter selectsVideo acts).
Proof.
  destruct init_invariants as (H2 & H3 & H4).
  exact (history_invariants acts init init_oneRun H2 H3 H4).
Qed.

(** X1: whatever the user drops or picks, the selected file is a video, and
    the preview URL is stored exactly when a file is selected. *)
Theorem selected_file_is_always_a_video (acts : list Action) :
  let w := run pl random objectUrl acts init in
  (forall f, selectedFile (ui w) = Some f ->
             startsWith (File.type f) "video/" = true) /\
  (selectedFile (ui w) = None <-> videoUrl (ui w) = None).
Proof.
  cbv zeta. destruct (reachable_invariants acts) as (_ & H & _).
  unfold selectionConsistent, isVideo in H.
  destruct (selectedFile (ui (run pl random objectUrl acts init))) as [g|].
  - destruct H as [Hv Hu]. split.
    + intros f Hf. injection Hf as <-. exact Hv.
    + split; intros E; [discriminate|contradiction].
  - destruct H as (Hu & _). split; [discriminate|]. split; auto.
Qed.

Lemma step_keeps_selection (a : Action) (w : World) :
  oneRun pl w -> selectedFile (ui w) <> None ->
  selectedFile (ui (step pl random objectUrl a w)) <> None.
Proof.
  intros Hone H.
  destruct (step_cases a w Hone)
    as [(-> & _)|[(f & _ & ->)|[(_ & Hr & ->)|[(_ & Hv & ->)|
        [(k & st & _ & _ & _ & _ & ->)|(k & _ & _ & _ & _ & ->)]]]]];
    try exact H.
  destruct (isVideo f) eqn:E; unfold isVideo in E.
  - rewrite (handleFileSelect_accepts f w E). discriminate.
  - rewrite (handleFileSelect_rejects f w E). exact H.
Qed.

(** X2: no analysis, result or playback without a selected file, and a
    selection, once made, is never undone. *)
Theorem nothing_without_a_selected_file (acts : list Action) :
  let w := run pl random objectUrl acts init in
  (isProcessing (ui w) = true -> selectedFile (ui w) <> None) /\
  (result (ui w) <> None -> selectedFile (ui w) <> None) /\
  (isPlaying (ui w) = true -> selectedFile (ui w) <> None) /\
  (pending w <> [] -> selectedFile (ui w) <> None) /\
  (forall more, selectedFile (ui w) <> None ->
     selectedFile (ui (run pl random objectUrl more w)) <> None).
Proof.
  cbv zeta. destruct (reachable_invariants acts) as (Hone & H & _).
  set (w := run pl random objectUrl acts init) in *. clearbody w.
  unfold selectionConsistent in H.
  split; [|split; [|split; [|split]]].
  - intros Hp Hs. rewrite Hs in H. destruct H as (_ & H & _). congruence.
  - intros Hp Hs. rewrite Hs in H. destruct H as (_ & _ & H & _). congruence.
  - intros Hp Hs. rewrite Hs in H. destruct H as (_ & _ & _ & H & _). congruence.
  - intros Hp Hs. rewrite Hs in H. destruct H as (_ & _ & _ & _ & H). congruence.
  - intros more. clear H. revert w Hone.
    induction more as [|a more IH]; intros w Hone Hs; [exact Hs|].
    apply (IH (step pl random objectUrl a w)).
    + apply step_oneRun. exact Hone.
    + apply step_keeps_selection; assumption.
Qed.

(** X3: the progress value always lies between 0 and 100, and while an
    analysis is in progress it is below 100. *)
Theorem progress_always_in_range (acts : list Action) :
  let w := run pl random objectUrl acts init in
  0 <= progress (ui w) /\ progress (ui w) <= 100 /\
  (isProcessing (ui w) = true -> progress (ui w) < 100).
Proof.
  cbv zeta. destruct (reachable_invariants acts) as (_ & _ & ((H1 & H2) & H3) & _).
  auto.
Qed.

(** X4: object URLs are created by accepted file selections and by nothing
    else, one each, and the preview always uses the one created last. *)
Theorem object_urls_follow_selections (acts : list Action) :
  let w := run pl random objectUrl acts init in
  urls w = List.length (filter selectsVideo acts) /\
  videoUrl (ui w) =
    match List.length (filter selectsVideo acts) with
    | O => None
    | S k => Some (objectUrl k)
    end.
Proof.
  cbv zeta. destruct (reachable_invariants acts) as (_ & _ & _ & H4 & H5).
  unfold previewIsLatest in H4. rewrite H5 in H4. auto.
Qed.

(** X5: an analysis in progress always comes to an end: from any reachable
    state with the processing flag up, exactly one stage is in flight,
    and once the remaining timers have fired, whatever the user does in
    between, the run has succeeded. *)
Theorem analysis_always_finishes (acts : list Action) :
  let w := run pl random objectUrl acts init in
  isProcessing (ui w) = true ->
  exists k, pending w = [k] /\ (k < List.length pl)%nat /\
    forall uss : list (list UserAction),
      (k + List.length uss = List.length pl)%nat ->
      runState (run pl random objectUrl (interleave uss) w) = Succeeded /\
      isProcessing (ui (run pl random objectUrl (interleave uss) w)) = false /\
      pending (run pl random objectUrl (interleave uss) w) = [].
Proof.
  cbv zeta. intros Hi. destruct (reachable_invariants acts) as (Hone & _).
  set (w := run pl random objectUrl acts init) in *. clearbody w.
  destruct Hone as [(Hc & _)|(_ & k & Hp & Hlt)]; [congruence|].
  exists k. split; [exact Hp|]. split; [exact Hlt|].
  intros uss Hlen.
  assert (Hne : uss <> []) by (intros ->; cbn in Hlen; lia).
  destruct (interleave_completes uss w k Hi Hp Hlen Hne) as [Hs Hq].
  split; [exact Hs|]. split; [|exact Hq].
  unfold runState in Hs.
  destruct (isProcessing (ui (run pl random objectUrl (interleave uss) w)));
    [discriminate|reflexivity].
Qed.

(** *** Runs and their results *)

(** X6: starting an analysis does not clear the stored result: the result of
    an earlier run stays in place through all stages of the next run and
    is replaced only when that run finishes. The selected file and the
    preview are not touched by a run. *)
Theorem rerun_keeps_previous_result (w0 : World) (k : nat) :
  ready w0 -> (k <= List.length pl)%nat ->
  let w := run pl random objectUrl (startAndFire k) w0 in
  result (ui w) =
    (if Nat.ltb k (List.length pl) then result (ui w0)
     else Some (mockAt random (draws w0))) /\
  selectedFile (ui w) = selectedFile (ui w0) /\
  videoUrl (ui w) = videoUrl (ui w0).
Proof.
  intros Hready Hk. cbv zeta. rewrite (run_afterStages w0 Hready k Hk).
  unfold afterStages. cbn [ui result selectedFile videoUrl]. auto.
Qed.

(** X7: the result of a run does not depend on the selected file or on
    anything else in the state it starts from, only on how many random
    draws have been made before. *)
Theorem result_ignores_the_file (w0 w1 : World) :
  ready w0 -> ready w1 -> draws w0 = draws w1 ->
  result (ui (run pl random objectUrl (startAndFire (List.length pl)) w0)) =
  result (ui (run pl random objectUrl (startAndFire (List.length pl)) w1)) /\
  result (ui (run pl random objectUrl (startAndFire (List.length pl)) w0)) <> None.
Proof.
  intros H0 H1 Hd.
  rewrite (run_afterStages w0 H0 (List.length pl) (Nat.le_refl _)).
  rewrite (run_afterStages w1 H1 (List.length pl) (Nat.le_refl _)).
  unfold afterStages. rewrite Nat.ltb_irrefl. cbn [ui result].
  rewrite Hd. split; [reflexivity|discriminate].
Qed.

Lemma afterStages_ready (w0 : World) :
  ready w0 -> ready (afterStages pl random w0 (List.length pl)).
Proof.
  intros (Hs & _ & _). unfold ready, afterStages.
  rewrite Nat.ltb_irrefl. cbn [ui selectedFile isProcessing pending]. auto.
Qed.

(** X8: each completed run uses up exactly five random draws, so a second
    run on the same file builds its result from the next five draws. *)
Theorem successive_runs_use_fresh_draws (w0 : World) :
  ready w0 ->
  let once := run pl random objectUrl (startAndFire (List.length pl)) w0 in
  let twice := run pl random objectUrl (startAndFire (List.length pl)) once in
  result (ui once) = Some (mockAt random (draws w0)) /\
  draws once = (5 + draws w0)%nat /\
  result (ui twice) = Some (mockAt random (5 + draws w0)) /\
  draws twice = (10 + draws w0)%nat /\
  selectedFile (ui twice) = selectedFile (ui w0).
Proof.
  intros Hready. cbv zeta.
  rewrite (run_afterStages w0 Hready (List.length pl) (Nat.le_refl _)).
  rewrite (run_afterStages _ (afterStages_ready w0 Hready) (List.length pl) (Nat.le_refl _)).
  unfold afterStages. rewrite Nat.ltb_irrefl.
  cbn [ui result draws selectedFile]. repeat split.
Qed.

(** X9: when a run finishes, the toast it shows and the badge rendered from
    the stored result agree: the toast is destructive exactly when the
    badge reads "DEEPFAKE DETECTED". *)
Theorem completion_toast_matches_badge (w0 : World) :
  ready w0 ->
  let w := run pl random objectUrl (startAndFire (List.length pl)) w0 in
  exists t b,
    last (trace w) (EvResolved 0) = EvToast t /\
    title t = "Analysis Complete" /\
    getResultBadge (ui w) = Some b /\
    badgeVariant b = variant t /\
    (variant t = Destructive <-> badgeLabel b = "DEEPFAKE DETECTED") /\
    (variant t = Default <-> badgeLabel b = "AUTHENTIC VIDEO").
Proof.
  intros Hready. cbv zeta.
  rewrite (run_afterStages w0 Hready (List.length pl) (Nat.le_refl _)).
  unfold afterStages, runEvents, nextEvents, getResultBadge.
  rewrite Nat.ltb_irrefl. cbn [ui result trace].
  assert (E : nth_error pl (List.length pl) = None)
    by (apply nth_error_None; lia).
  rewrite E. unfold finishEvents.
  set (m := mockAt random (draws w0)).
  assert (Hlast : forall (x : list Event) (a b c d : Event),
            last (x ++ [a; b; c]) d = c).
  { intros x a b c d. change [a; b; c] with ([a; b] ++ [c]).
    rewrite app_assoc. apply last_last. }
  rewrite !app_assoc, Hlast.
  destruct (isDeepfake m); eexists; eexists;
    (split; [reflexivity|]); (split; [reflexivity|]);
    (split; [reflexivity|]); (split; [reflexivity|]);
    cbn [variant badgeLabel]; split; split; intros H;
    try reflexivity; discriminate H.
Qed.

(** *** The timers of a run *)

Lemma timeouts_app (tr tr' : list Event) :
  timeouts (tr ++ tr') = timeouts tr ++ timeouts tr'.
Proof.
  induction tr as [|e tr IH]; [reflexivity|].
  destruct e; cbn [app timeouts]; rewrite IH; reflexivity.
Qed.

Lemma timeouts_blocks (l : list Stage) :
  forall a, timeouts (blocks pl a l) = map duration l.
Proof.
  induction l as [|st l IH]; intros a; [reflexivity|].
  cbn [blocks stageBlock app timeouts map]. rewrite IH. reflexivity.
Qed.

Lemma firstn_S_nth_error (k : nat) :
  firstn (S k) pl =
    firstn k pl ++ match nth_error pl k with
                   | Some st => [st]
                   | None => []
                   end.
Proof.
  generalize k. clear k. induction pl as [|x l IH]; intros k.
  - destruct k; reflexivity.
  - destruct k as [|k]; [reflexivity|].
    rewrite firstn_cons, (IH k). reflexivity.
Qed.

Lemma timeouts_runEvents (d k : nat) :
  timeouts (runEvents pl random d k) = map duration (firstn (S k) pl).
Proof.
  unfold runEvents, nextEvents. cbn [app timeouts].
  rewrite timeouts_app, timeouts_blocks, firstn_S_nth_error, map_app.
  destruct (nth_error pl k); reflexivity.
Qed.

(** X10: a run creates its timers one per stage, in stage order, each with
    the duration of its stage, so a complete run waits for all the
    durations in turn; the processing time it stores is 4.6 whatever the
    durations are. *)
Theorem run_creates_one_timer_per_stage (w0 : World) (k : nat) :
  ready w0 -> (k <= List.length pl)%nat ->
  timeouts (eventsSince w0 (run pl random objectUrl (startAndFire k) w0)) =
    map duration (firstn (S k) pl) /\
  timeouts (eventsSince w0
              (run pl random objectUrl (startAndFire (List.length pl)) w0)) =
    map duration pl /\
  option_map processingTime
    (result (ui (run pl random objectUrl (startAndFire (List.length pl)) w0))) =
    Some 4.6.
Proof.
  intros Hready Hk.
  rewrite (run_afterStages w0 Hready k Hk).
  rewrite (run_afterStages w0 Hready (List.length pl) (Nat.le_refl _)).
  rewrite !eventsSince_afterStages, !timeouts_runEvents.
  split; [reflexivity|]. split.
  - rewrite firstn_all2 by lia. reflexivity.
  - unfold afterStages. rewrite Nat.ltb_irrefl. reflexivity.
Qed.

(** *** Gestures that carry no file, or several *)

Lemma step_firstOnly (a : Action) (w : World) :
  step pl random objectUrl (firstOnly a) w = step pl random objectUrl a w.
Proof.
  destruct a as [[[|f files]|[[|f files]|]| |]|j]; reflexivity.
Qed.

Lemma step_emptyHanded (a : Action) (w : World) :
  emptyHanded a = true -> step pl random objectUrl a w = w.
Proof.
  destruct a as [[[|f files]|[[|f files]|]| |]|j]; intros H;
    try discriminate H; reflexivity.
Qed.

(** X11: of the files dropped or picked together only the first is ever
    looked at, and a drop or a file dialog that brings no file changes
    nothing, not even by a toast: any history runs the same with every
    selection cut down to its first file and with the empty ones left
    out. *)
Theorem only_first_file_counts (acts : list Action) :
  forall w,
    run pl random objectUrl (map firstOnly acts) w =
      run pl random objectUrl acts w /\
    run pl random objectUrl (filter (fun a => negb (emptyHanded a)) acts) w =
      run pl random objectUrl acts w.
Proof.
  induction acts as [|a acts IH]; intros w; [split; reflexivity|].
  destruct (IH (step pl random objectUrl a w)) as [IH1 IH2]. split.
  - cbn [map]. change (run pl random objectUrl (firstOnly a :: map firstOnly acts) w)
      with (run pl random objectUrl (map firstOnly acts)
              (step pl random objectUrl (firstOnly a) w)).
    rewrite step_firstOnly. exact IH1.
  - cbn [filter]. destruct (emptyHanded a) eqn:E; cbn [negb].
    + change (run pl random objectUrl (a :: acts) w)
        with (run pl random objectUrl acts (step pl random objectUrl a w)).
      rewrite (step_emptyHanded a w E). apply (IH w).
    + exact IH2.
Qed.

(** *** Play and pause *)

(** X12: the play/pause button only flips the playback flag: pressed twice it
    leaves the state as it was, without a loaded video it does nothing at
    all, and it never touches the file, the analysis or its result. *)
Theorem togglePlayPause_only_flips_playback (w : World) :
  ui (togglePlayPause (togglePlayPause w)) = ui w /\
  (videoUrl (ui w) = None -> togglePlayPause w = w) /\
  (videoUrl (ui w) <> None ->
     isPlaying (ui (togglePlayPause w)) = negb (isPlaying (ui w))) /\
  selectedFile (ui (togglePlayPause w)) = selectedFile (ui w) /\
  isProcessing (ui (togglePlayPause w)) = isProcessing (ui w) /\
  progress (ui (togglePlayPause w)) = progress (ui w) /\
  result (ui (togglePlayPause w)) = result (ui w) /\
  videoUrl (ui (togglePlayPause w)) = videoUrl (ui w) /\
  pending (togglePlayPause w) = pending w /\
  draws (togglePlayPause w) = draws w /\ urls (togglePlayPause w) = urls w.
Proof.
  destruct w as [[sf ip pr rs vu py] p d ur tr]. unfold togglePlayPause.
  cbn [ui videoUrl isPlaying]. destruct vu as [u|].
  - effects. rewrite negb_involutive.
    repeat split; try reflexivity. intros H. discriminate H.
  - repeat split; try reflexivity. intros H. congruence.
Qed.

(** *** Rejected files in a history *)

Lemma loopFrom_sameState (i : nat) (w w' : World) :
  sameState w w' ->
  sameState (loopFrom pl random i w) (loopFrom pl random i w').
Proof.
  intros (Hu & Hp & Hd & Hr). unfold loopFrom.
  destruct (nth_error pl i) as [st|].
  - destruct w as [u p d r tr], w' as [u' p' d' r' tr'].
    cbn [ui pending draws urls] in Hu, Hp, Hd, Hr. subst.
    unfold sameState. effects. auto.
  - rewrite !finish_eq. unfold sameState. cbn [ui pending draws urls].
    rewrite Hu, Hp, Hd, Hr. auto.
Qed.

(** No handler reads the record of past effects: from worlds with the
    same state a step leads to worlds with the same state. *)
Lemma step_sameState (a : Action) (w w' : World) :
  sameState w w' ->
  sameState (step pl random objectUrl a w) (step pl random objectUrl a w').
Proof.
  intros H. pose proof H as (Hu & Hp & Hd & Hr).
  assert (Hsel : forall f, sameState (handleFileSelect objectUrl f w)
                                      (handleFileSelect objectUrl f w')).
  { intros f. destruct (isVideo f) eqn:E; unfold isVideo in E.
    - rewrite !(handleFileSelect_accepts f _ E). unfold sameState.
      cbn [ui pending draws urls]. rewrite Hu, Hp, Hd, Hr. auto.
    - rewrite !(handleFileSelect_rejects f _ E). exact H. }
  destruct a as [[files|files| |]|j]; cbn [step userStep].
  - destruct files as [|f files]; cbn [handleDrop]; [exact H|apply Hsel].
  - destruct files as [[|f files]|]; cbn [handleFileInput];
      [exact H|apply Hsel|exact H].
  - unfold clickStart. rewrite <- Hu.
    destruct (selectedFile (ui w)); [|exact H].
    destruct (isProcessing (ui w)); [exact H|].
    unfold simulateMLProcessing. apply loopFrom_sameState.
    destruct w as [u p d r tr], w' as [u' p' d' r' tr'].
    cbn [ui pending draws urls] in Hu, Hp, Hd, Hr. subst.
    unfold sameState. effects. auto.
  - unfold togglePlayPause. rewrite <- Hu.
    destruct (videoUrl (ui w)); [|exact H].
    destruct w as [u p d r tr], w' as [u' p' d' r' tr'].
    cbn [ui pending draws urls] in Hu, Hp, Hd, Hr. subst.
    unfold sameState. effects. auto.
  - unfold timerFire. rewrite <- Hp.
    destruct (nth_error (pending w) j) as [i|]; [|exact H].
    unfold resume. apply loopFrom_sameState.
    destruct w as [u p d r tr], w' as [u' p' d' r' tr'].
    cbn [ui pending draws urls] in Hu, Hp, Hd, Hr. subst.
    unfold sameState. effects. auto.
Qed.

Lemma step_rejected (a : Action) (w : World) :
  rejected a = true -> sameState w (step pl random objectUrl a w).
Proof.
  unfold rejected. intros H.
  assert (Hrej : forall f, isVideo f = false ->
            sameState w (handleFileSelect objectUrl f w)).
  { intros f E. unfold isVideo in E. rewrite (handleFileSelect_rejects f w E).
    unfold sameState. cbn [ui pending draws urls]. auto. }
  destruct a as [[[|f files]|[[|f files]|]| |]|j]; cbn [offeredFile] in H;
    try discriminate H; cbn [step userStep handleDrop handleFileInput];
    apply Hrej; apply negb_true_iff; exact H.
Qed.

Lemma sameState_trans (w1 w2 w3 : World) :
  sameState w1 w2 -> sameState w2 w3 -> sameState w1 w3.
Proof.
  intros (A1 & A2 & A3 & A4) (B1 & B2 & B3 & B4). unfold sameState.
  rewrite A1, A2, A3, A4. auto.
Qed.

(** X13: a rejected file leaves no mark on what follows: any history ends in
    the same state, with the same suspended run and the same counts of
    random draws and object URLs, as the history without its rejected
    selections; only the toasts shown differ. *)
Theorem rejected_files_leave_no_mark (acts : list Action) :
  forall w,
    sameState
      (run pl random objectUrl (filter (fun a => negb (rejected a)) acts) w)
      (run pl random objectUrl acts w).
Proof.
  assert (G : forall acts w w', sameState w w' ->
            sameState
              (run pl random objectUrl (filter (fun a => negb (rejected a)) acts) w)
              (run pl random objectUrl acts w')).
  { clear acts. induction acts as [|a acts IH]; intros w w' H; [exact H|].
    change (run pl random objectUrl (a :: acts) w')
      with (run pl random objectUrl acts (step pl random objectUrl a w')).
    cbn [filter]. destruct (rejected a) eqn:E; cbn [negb].
    - apply IH. apply (sameState_trans w w' _ H). apply step_rejected. exact E.
    - change (run pl random objectUrl
                (a :: filter (fun a => negb (rejected a)) acts) w)
        with (run pl random objectUrl (filter (fun a => negb (rejected a)) acts)
                (step pl random objectUrl a w)).
      apply IH. apply step_sameState. exact H. }
  intros w. apply G. unfold sameState. auto.
Qed.

(** *** The effects of a run among those of the gestures *)

Lemma eventsSince_app (w w' : World) (x : list Event) :
  trace w' = trace w ++ x -> eventsSince w w' = x.
Proof.
  intros H. unfold eventsSince. rewrite H, skipn_app, skipn_all, Nat.sub_diag.
  reflexivity.
Qed.

Lemma eventsSince_same (w : World) : eventsSince w w = [].
Proof. apply eventsSince_app. rewrite app_nil_r. reflexivity. Qed.

Lemma tracedBy_app (sel : Action -> bool) (acts acts' : list Action) :
  forall w,
    tracedBy pl random objectUrl sel (acts ++ acts') w =
      tracedBy pl random objectUrl sel acts w ++
      tracedBy pl random objectUrl sel acts' (run pl random objectUrl acts w).
Proof.
  induction acts as [|a acts IH]; intros w; [reflexivity|].
  cbn [app tracedBy]. rewrite IH, <- app_assoc. reflexivity.
Qed.

(** Every step only adds to the record of effects. *)
Lemma loopFrom_extends (i : nat) (w : World) :
  exists x, trace (loopFrom pl random i w) = trace w ++ x.
Proof.
  destruct (loopFrom_cases i w) as [(st & _ & _ & ->)|(_ & ->)].
  - eexists. reflexivity.
  - rewrite finish_eq. eexists. reflexivity.
Qed.

Lemma step_extends (a : Action) (w : World) :
  exists x, trace (step pl random objectUrl a w) = trace w ++ x.
Proof.
  assert (Hsel : forall f, exists x,
            trace (handleFileSelect objectUrl f w) = trace w ++ x).
  { intros f. destruct (startsWith (File.type f) "video/") eqn:E.
    - rewrite (handleFileSelect_accepts f w E). eexists. reflexivity.
    - rewrite (handleFileSelect_rejects f w E). eexists. reflexivity. }
  assert (Hnil : exists x, trace w = trace w ++ x)
    by (exists []; rewrite app_nil_r; reflexivity).
  destruct a as [[files|files| |]|j]; cbn [step userStep].
  - destruct files as [|f files]; cbn [handleDrop]; [exact Hnil|apply Hsel].
  - destruct files as [[|f files]|]; cbn [handleFileInput];
      [exact Hnil|apply Hsel|exact Hnil].
  - unfold clickStart. destruct (selectedFile (ui w)); [|exact Hnil].
    destruct (isProcessing (ui w)); [exact Hnil|]. unfold simulateMLProcessing.
    match goal with |- context [loopFrom _ _ ?i ?w'] =>
      destruct (loopFrom_extends i w') as [x Hx]
    end.
    rewrite Hx. destruct w as [u p d r tr]. effects.
    rewrite <- !app_assoc. eexists. reflexivity.
  - unfold togglePlayPause. destruct (videoUrl (ui w)); [|exact Hnil].
    destruct w as [u p d r tr]. effects. eexists. reflexivity.
  - unfold timerFire. destruct (nth_error (pending w) j) as [i|]; [|exact Hnil].
    unfold resume.
    match goal with |- context [loopFrom _ _ ?i ?w'] =>
      destruct (loopFrom_extends i w') as [x Hx]
    end.
    rewrite Hx. destruct w as [u p d r tr]. effects.
    rewrite <- !app_assoc. eexists. reflexivity.
Qed.

Lemma run_extends (acts : list Action) :
  forall w, exists x, trace (run pl random objectUrl acts w) = trace w ++ x.
Proof.
  induction acts as [|a acts IH]; intros w.
  - exists []. rewrite app_nil_r. reflexivity.
  - destruct (step_extends a w) as [x Hx].
    destruct (IH (step pl random objectUrl a w)) as [y Hy].
    exists (x ++ y).
    change (run pl random objectUrl (a :: acts) w)
      with (run pl random objectUrl acts (step pl random objectUrl a w)).
    rewrite Hy, Hx, app_assoc. reflexivity.
Qed.

(** Taken over all steps, the effects collected step by step are the
    effects of the history. *)
Lemma tracedBy_everyStep (acts : list Action) :
  forall w,
    tracedBy pl random objectUrl everyStep acts w =
      eventsSince w (run pl random objectUrl acts w).
Proof.
  induction acts as [|a acts IH]; intros w.
  - cbn. symmetry. apply eventsSince_same.
  - cbn [tracedBy everyStep]. rewrite IH.
    change (run pl random objectUrl (a :: acts) w)
      with (run pl random objectUrl acts (step pl random objectUrl a w)).
    destruct (step_extends a w) as [x Hx].
    destruct (run_extends acts (step pl random objectUrl a w)) as [y Hy].
    rewrite (eventsSince_app w _ x Hx).
    rewrite (eventsSince_app _ _ y Hy).
    symmetry. apply eventsSince_app. rewrite Hy, Hx, app_assoc. reflexivity.
Qed.

(** The calls of [setProgress] in a history are those made by the run
    and those made by the other handlers. *)
Lemma progress_calls_split (acts : list Action) :
  forall w,
    List.length (progressValues (tracedBy pl random objectUrl everyStep acts w)) =
      (List.length (progressValues (tracedBy pl random objectUrl byRun acts w)) +
       List.length (progressValues
                      (tracedBy pl random objectUrl
                         (fun a => negb (byRun a)) acts w)))%nat.
Proof.
  induction acts as [|a acts IH]; intros w; [reflexivity|].
  cbn [tracedBy everyStep]. rewrite !progressValues_app, !length_app, IH.
  destruct (byRun a); cbn [negb progressValues List.length]; lia.
Qed.

(** Outside the run, [setProgress] is called once by every accepted file
    selection and by nothing else. *)
Lemma progress_calls_of_gestures (acts : list Action) :
  forall w,
    List.length (progressValues
                   (tracedBy pl random objectUrl (fun a => negb (byRun a)) acts w)) =
      List.length (filter selectsVideo acts).
Proof.
  induction acts as [|a acts IH]; intros w; [reflexivity|].
  cbn [tracedBy filter]. rewrite progressValues_app, length_app, IH.
  assert (Hsel : forall f,
            List.length (progressValues
                           (eventsSince w (handleFileSelect objectUrl f w))) =
              if isVideo f then 1%nat else 0%nat).
  { intros f. destruct (isVideo f) eqn:E; unfold isVideo in E.
    - rewrite (eventsSince_app w _ _
                 (f_equal trace (handleFileSelect_accepts f w E))).
      reflexivity.
    - rewrite (eventsSince_app w _ _
                 (f_equal trace (handleFileSelect_rejects f w E))).
      reflexivity. }
  destruct a as [[[|f files]|[[|f files]|]| |]|j];
    cbn [byRun negb selectsVideo offeredFile step userStep handleDrop
         handleFileInput progressValues List.length];
    try rewrite eventsSince_same; try rewrite Hsel;
    try (destruct (isVideo f)); cbn [progressValues List.length]; try lia.
  unfold togglePlayPause. destruct (videoUrl (ui w)) eqn:E.
  - rewrite (eventsSince_app w _ [EvSetIsPlaying (negb (isPlaying (ui w)))]).
    + reflexivity.
    + destruct w as [u p d r tr]. effects. reflexivity.
  - rewrite eventsSince_same. reflexivity.
Qed.

(** While a run is in progress a gesture leaves the suspended run, the
    flag and the random draws alone, and no code of the run executes. *)
Lemma userStep_quiet (sel : Action -> bool) (u : UserAction) (w : World) :
  (forall u', sel (User u') = true -> u' = ClickStart) ->
  isProcessing (ui w) = true ->
  draws (userStep pl random objectUrl u w) = draws w /\
  (if sel (User u)
   then eventsSince w (step pl random objectUrl (User u) w) else []) = [].
Proof.
  intros Hsel Hi.
  assert (Hd : forall f, draws (handleFileSelect objectUrl f w) = draws w).
  { intros f. destruct (startsWith (File.type f) "video/") eqn:E.
    - rewrite (handleFileSelect_accepts f w E). reflexivity.
    - rewrite (handleFileSelect_rejects f w E). reflexivity. }
  destruct (sel (User u)) eqn:Es.
  - rewrite (Hsel u Es). cbn [step userStep]. unfold clickStart.
    destruct (selectedFile (ui w)); [rewrite Hi|];
      (split; [reflexivity|apply eventsSince_same]).
  - split; [|reflexivity]. destruct u as [files|files| |]; cbn [userStep].
    + destruct files as [|f files]; cbn [handleDrop]; [reflexivity|apply Hd].
    + destruct files as [[|f files]|]; cbn [handleFileInput];
        [reflexivity|apply Hd|reflexivity].
    + unfold clickStart. destruct (selectedFile (ui w)); [rewrite Hi|];
        reflexivity.
    + unfold togglePlayPause. destruct (videoUrl (ui w)); [|reflexivity].
      destruct w as [u p d r tr]. effects. reflexivity.
Qed.

Lemma userSteps_quiet (sel : Action -> bool) (us : list UserAction) :
  (forall u', sel (User u') = true -> u' = ClickStart) ->
  forall w, isProcessing (ui w) = true ->
    draws (run pl random objectUrl (map User us) w) = draws w /\
    tracedBy pl random objectUrl sel (map User us) w = [].
Proof.
  intros Hsel. induction us as [|u us IH]; intros w Hi; [split; reflexivity|].
  cbn [map tracedBy].
  change (run pl random objectUrl (User u :: map User us) w)
    with (run pl random objectUrl (map User us) (userStep pl random objectUrl u w)).
  destruct (userStep_quiet sel u w Hsel Hi) as [Hd He].
  destruct (userStep_while_processing u w Hi) as [_ Hi'].
  cbn [step] in *. destruct (IH _ Hi') as [Hd' Ht].
  rewrite Hd', Hd, He, Ht. split; reflexivity.
Qed.

Lemma timerFire_events (w : World) (k : nat) :
  pending w = [k] ->
  eventsSince w (timerFire pl random 0 w) =
    continuation pl random (draws w) k.
Proof.
  intros Hp. pose proof (timerFire_inflight w k Hp) as H.
  unfold continuation, nextEvents. replace (S k) with (k + 1)%nat by lia.
  destruct (nth_error pl (k + 1)) as [st|];
    apply eventsSince_app; rewrite H; reflexivity.
Qed.

Lemma continuations_S (d a m : nat) :
  continuations pl random d a (S m) =
    continuation pl random d a ++ continuations pl random d (S a) m.
Proof. reflexivity. Qed.

(** The code of the run that executes during an interleaving of gestures
    and timer firings is one continuation per firing, in stage order. *)
Lemma tracedBy_interleave (sel : Action -> bool) (uss : list (list UserAction)) :
  (forall u', sel (User u') = true -> u' = ClickStart) ->
  sel (TimerFire 0) = true ->
  forall (w : World) (k : nat),
    isProcessing (ui w) = true -> pending w = [k] ->
    (k + List.length uss <= n)%nat ->
    tracedBy pl random objectUrl sel (interleave uss) w =
      continuations pl random (draws w) k (List.length uss).
Proof.
  intros Hsel Hfire.
  induction uss as [|us uss IH]; intros w k Hi Hp Hlen; [reflexivity|].
  unfold interleave. cbn [flat_map]. fold (interleave uss).
  rewrite <- app_assoc, !tracedBy_app.
  destruct (userSteps_quiet sel us Hsel w Hi) as [Hd Ht].
  destruct (userSteps_while_processing us w Hi) as [Hp1 Hi1].
  rewrite Hp in Hp1. rewrite Ht. cbn [app].
  set (w1 := run pl random objectUrl (map User us) w) in *. clearbody w1.
  cbn [tracedBy run fold_left step]. rewrite Hfire, app_nil_r.
  rewrite (timerFire_events w1 k Hp1), Hd.
  cbn [List.length] in Hlen |- *. rewrite continuations_S. f_equal.
  destruct uss as [|us' uss]; [reflexivity|].
  pose proof (timerFire_inflight w1 k Hp1) as Hf.
  cbn [List.length] in Hlen.
  destruct (nth_error pl (k + 1)) as [st|] eqn:E.
  - rewrite Hf.
    rewrite (IH _ (k + 1)%nat); cbn [ui isProcessing pending draws List.length];
      try reflexivity; try exact Hi1; try lia.
    rewrite Hd. replace (k + 1)%nat with (S k) by lia. reflexivity.
  - apply nth_error_None in E. fold n in E. lia.
Qed.

Lemma runEvents_S (d k : nat) :
  (k < n)%nat ->
  runEvents pl random d (S k) =
    runEvents pl random d k ++ continuation pl random d k.
Proof.
  intros Hk. unfold runEvents, continuation.
  destruct (nth_error pl k) as [st|] eqn:E;
    [|apply nth_error_None in E; fold n in E; lia].
  rewrite (blocks_snoc pl 0 k st E). unfold nextEvents at 2. rewrite E.
  unfold stageBlock. cbn [Nat.add]. lists. reflexivity.
Qed.

Lemma runEvents_continuations (d m : nat) :
  forall k, (k + m <= n)%nat ->
    runEvents pl random d k ++ continuations pl random d k m =
      runEvents pl random d (k + m).
Proof.
  induction m as [|m IH]; intros k Hk.
  - unfold continuations. cbn. rewrite app_nil_r, Nat.add_0_r. reflexivity.
  - rewrite continuations_S, app_assoc, <- runEvents_S by lia.
    rewrite (IH (S k)) by lia. f_equal. lia.
Qed.

Lemma progressValues_continuations (d m : nat) :
  forall a,
    progressValues (continuations pl random d a m) =
      map (progressAt pl) (seq a m).
Proof.
  induction m as [|m IH]; intros a; [reflexivity|].
  rewrite continuations_S, progressValues_app, IH. unfold continuation.
  cbn [app progressValues]. rewrite progressValues_nextEvents. reflexivity.
Qed.

(** C3: in every run, whatever the user does while it is in progress, the
    code of the run performs its effects in the sequential order (the timer of
    stage [i] is created only once stages [0..i-1] have settled and
    reported, and a settled stage reports exactly once before the next
    timer is created). The run calls [setProgress] once to reset the
    value and then once per completed stage, in stage order; each timer
    firing accounts for exactly one of these calls; and every other call
    of [setProgress] in the history is the reset of an accepted file
    selection. *)
Theorem stages_sequential_one_event_each
    (w0 : World) (uss : list (list UserAction)) :
  ready w0 -> (List.length uss <= List.length pl)%nat ->
  let k := List.length uss in
  let acts := User ClickStart :: interleave uss in
  let w := run pl random objectUrl acts w0 in
  let own := tracedBy pl random objectUrl byRun acts w0 in
  accept Starting own =
    Some (if Nat.ltb k (List.length pl) then InFlight k else Between k) /\
  progressValues own = 0 :: map (progressAt pl) (seq 0 k) /\
  progressValues (tracedBy pl random objectUrl byTimer acts w0) =
    map (progressAt pl) (seq 0 k) /\
  List.length (progressValues (eventsSince w0 w)) =
    (1 + k + List.length (filter selectsVideo acts))%nat /\
  pending w = (if Nat.ltb k (List.length pl) then [k] else []).
Proof.
  intros Hready Hlen. cbv zeta. fold n in Hlen |- *.
  pose proof (run_afterStages w0 Hready 0 (Nat.le_0_l _)) as H0.
  change (run pl random objectUrl (startAndFire 0) w0)
    with (step pl random objectUrl (User ClickStart) w0) in H0.
  set (d := draws w0).
  assert (Hrest : forall sel,
            (forall u', sel (User u') = true -> u' = ClickStart) ->
            sel (TimerFire 0) = true ->
            tracedBy pl random objectUrl sel (interleave uss)
              (afterStages pl random w0 0) =
              continuations pl random d 0 (List.length uss)).
  { intros sel Hs Hf. destruct uss as [|us uss]; [reflexivity|].
    cbn [List.length] in Hlen.
    assert (Hlt : Nat.ltb 0 n = true) by (apply Nat.ltb_lt; lia).
    rewrite (tracedBy_interleave sel (us :: uss) Hs Hf _ 0%nat).
    - unfold afterStages. fold n. rewrite Hlt. reflexivity.
    - unfold afterStages. fold n. rewrite Hlt. reflexivity.
    - unfold afterStages. fold n. rewrite Hlt. reflexivity.
    - cbn [List.length Nat.add]. lia. }
  assert (Hown : tracedBy pl random objectUrl byRun
                   (User ClickStart :: interleave uss) w0 =
                 runEvents pl random d (List.length uss)).
  { cbn [tracedBy byRun]. rewrite H0, eventsSince_afterStages.
    rewrite Hrest; [|intros u' Hu; destruct u'; (reflexivity || discriminate Hu)
                    |reflexivity].
    fold d. apply (runEvents_continuations d (List.length uss) 0). exact Hlen. }
  assert (Htimer : tracedBy pl random objectUrl byTimer
                     (User ClickStart :: interleave uss) w0 =
                   continuations pl random d 0 (List.length uss)).
  { cbn [tracedBy byTimer app]. rewrite H0.
    apply Hrest; [intros u' Hu; discriminate Hu|reflexivity]. }
  split; [rewrite Hown; apply accept_runEvents; exact Hlen|].
  split; [rewrite Hown; apply progressValues_runEvents; exact Hlen|].
  split; [rewrite Htimer; apply progressValues_continuations|].
  split.
  - rewrite <- tracedBy_everyStep, progress_calls_split, Hown.
    rewrite (progressValues_runEvents d _ Hlen), progress_calls_of_gestures.
    cbn [List.length]. rewrite length_map, length_seq. lia.
  - destruct uss as [|us uss].
    + change (run pl random objectUrl (User ClickStart :: interleave []) w0)
        with (step pl random objectUrl (User ClickStart) w0).
      rewrite H0. unfold afterStages. reflexivity.
    + assert (Hlt : Nat.ltb 0 n = true)
        by (apply Nat.ltb_lt; cbn [List.length] in Hlen; lia).
      change (run pl random objectUrl (User ClickStart :: interleave (us :: uss)) w0)
        with (run pl random objectUrl (interleave (us :: uss))
                (step pl random objectUrl (User ClickStart) w0)).
      rewrite H0.
      assert (Hi : isProcessing (ui (afterStages pl random w0 0)) = true)
        by (unfold afterStages; fold n; rewrite Hlt; reflexivity).
      assert (Hp : pending (afterStages pl random w0 0) = [0%nat])
        by (unfold afterStages; fold n; rewrite Hlt; reflexivity).
      destruct (interleave_advances (us :: uss) _ 0%nat Hi Hp Hlen
                  ltac:(discriminate)) as [_ H].
      cbn [Nat.add] in H.
      destruct (Nat.ltb (List.length (us :: uss)) n); destruct H as [H _];
        exact H.
Qed.

End Proofs.

(** * The source's stage list and concrete runs *)

Lemma loaded_ready : ready loaded.
Proof. unfold ready. cbn. repeat split. discriminate. Qed.


(** ** C1 *)

Lemma progress_nondecreasing_ends_at_100_witness :
  let w := run stages zeros blobs (startAndFire 6) loaded in
  let ps := progressValues (eventsSince loaded w) in
  nondecreasing ps = true /\
  progress (ui w) = last ps 0 /\
  (last ps 0 == 100 <-> runState w = Succeeded) /\
  (runState w = Succeeded <-> 6%nat = List.length stages) /\
  (forall j, (j + 1 < List.length ps)%nat -> nth j ps 0 < 100).
Proof.
  apply (progress_nondecreasing_ends_at_100 stages zeros blobs loaded 6).
  - discriminate.
  - exact loaded_ready.
  - cbn. lia.
Defined.

(** The same six progress values computed in double precision: they
    increase, only the last one is 100, and it is exactly 100. *)
Lemma binary64_progress_of_six_stages :
  Binary64.nondecreasing (Binary64.progressOfRun (List.length stages)) = true /\
  PrimFloat.eqb (last (Binary64.progressOfRun (List.length stages)) 0%float) 100%float
    = true /\
  forallb (fun v => PrimFloat.ltb v 100%float)
    (removelast (Binary64.progressOfRun (List.length stages))) = true.
Proof. vm_compute. repeat split. Qed.


(** ** C2 *)




(** In double precision the six values stored are, to the last bit, the
    ones of line 87; they are not those of [100 * (i + 1) / 6], which
    differ for the first, second, fourth and fifth stage, and not those
    weighted by the durations. *)
Lemma binary64_progress_is_the_expression_of_line_87 :
  map (fun i => PrimFloat.eqb (Binary64.progressAt 6 i) (Binary64.timesFirst 6 i))
    (seq 0 6) = [false; false; true; false; false; true] /\
  map (fun i => PrimFloat.eqb (Binary64.progressAt 6 i)
                  (Binary64.weighted [800; 1200; 1000; 900; 1100; 600] (i + 1))%nat)
    (seq 0 5) = [false; false; false; false; false].
Proof. vm_compute. split; reflexivity. Qed.

(** ** C3 *)

(** The run on [clip] during which [other] is dropped: eight calls of
    [setProgress] in all, seven of them by the run. *)
Lemma stages_sequential_one_event_each_witness :
  let k := List.length disturbed in
  let acts := User ClickStart :: interleave disturbed in
  let w := run stages zeros blobs acts loaded in
  let own := tracedBy stages zeros blobs byRun acts loaded in
  accept Starting own =
    Some (if Nat.ltb k (List.length stages) then InFlight k else Between k) /\
  progressValues own = 0 :: map (progressAt stages) (seq 0 k) /\
  progressValues (tracedBy stages zeros blobs byTimer acts loaded) =
    map (progressAt stages) (seq 0 k) /\
  List.length (progressValues (eventsSince loaded w)) =
    (1 + k + List.length (filter selectsVideo acts))%nat /\
  pending w = (if Nat.ltb k (List.length stages) then [k] else []).
Proof.
  apply (stages_sequential_one_event_each stages zeros blobs loaded disturbed).
  - exact loaded_ready.
  - cbn. lia.
Defined.

(** ** C4 *)

(** With every draw equal to 0 the run on [clip] stores confidence 0.75
    while its sub-scores 0.82, 0.78 and 0.73 have mean 2.33/3; and it
    classifies the video as authentic although that mean exceeds 0.6. *)
Lemma mock_result_not_default_aggregation :
  exists r, result (ui (analysing 6)) = Some r /\
    runState (analysing 6) = Succeeded /\
    mean (subScores r) == 233 # 300 /\
    confidence r == 3 # 4 /\
    isDeepfake r = false /\
    ~ exists t, defaultAggregation t r.
Proof.
  exists (mockAt zeros 0). split; [reflexivity|]. split; [reflexivity|].
  split; [reflexivity|]. split; [reflexivity|]. split; [reflexivity|].
  intros (t & _ & H). vm_compute in H. discriminate H.
Qed.

Lemma result_is_drawn_at_random_witness :
  let w := run stages halves blobs (startAndFire (List.length stages)) loaded in
  let d := draws loaded in
  exists r, result (ui w) = Some r /\ runState w = Succeeded /\
    (isDeepfake r = true <-> 0.6 < halves d) /\
    confidence r = 0.75 + halves (1 + d) * 0.24 /\
    subScores r = [ 0.82 + halves (2 + d) * 0.17;
                    0.78 + halves (3 + d) * 0.21;
                    0.73 + halves (4 + d) * 0.26 ] /\
    processingTime r = 4.6.
Proof.
  apply (result_is_drawn_at_random stages halves blobs loaded).
  exact loaded_ready.
Defined.

(** ** C5 *)

(** Two stages into the run a click on the start button returns normally
    and changes nothing; after the run has succeeded a click starts the
    next run. Neither raises an error. *)
Lemma start_on_non_idle_run_raises_nothing :
  runState (analysing 2) = Running /\
  dispatch stages zeros blobs (User ClickStart) (analysing 2) = inr (analysing 2) /\
  dispatch stages zeros blobs (User ClickStart) (analysing 2)
    <> inl AlreadyStartedError /\
  runState (analysing 6) = Succeeded /\
  dispatch stages zeros blobs (User ClickStart) (analysing 6)
    <> inl AlreadyStartedError /\
  runState (step stages zeros blobs (User ClickStart) (analysing 6)) = Running.
Proof.
  vm_compute. repeat split; intros H; discriminate H.
Qed.

(** ** C6 *)

(** While the first stage of the run on [clip] is in flight, no gesture
    keeps the second stage from starting once the first has settled. *)
Lemma no_gesture_cancels_the_run :
  ~ exists u : UserAction,
      let w := run stages zeros blobs [User u; TimerFire 0] (analysing 0) in
      runState w = Cancelled \/ pending w <> [1%nat] \/
      ~ In (EvSetTimeout 1 1200) (trace w).
Proof.
  intros (u & H). cbv zeta in H.
  assert (Hi : isProcessing (ui (analysing 0)) = true) by reflexivity.
  assert (Hp : pending (analysing 0) = [0%nat]) by reflexivity.
  destruct (userSteps_while_processing stages zeros blobs [u] (analysing 0) Hi)
    as [Hp1 Hi1].
  rewrite Hp in Hp1.
  change (run stages zeros blobs [User u; TimerFire 0] (analysing 0))
    with (timerFire stages zeros 0
            (run stages zeros blobs (map User [u]) (analysing 0))) in H.
  set (w1 := run stages zeros blobs (map User [u]) (analysing 0)) in *.
  clearbody w1.
  pose proof (timerFire_inflight stages zeros w1 0 Hp1) as Hfire.
  cbn [nth_error Nat.add stages] in Hfire. rewrite Hfire in H.
  destruct H as [H|[H|H]].
  - unfold runState in H. cbn [ui isProcessing] in H. rewrite Hi1 in H.
    discriminate H.
  - apply H. reflexivity.
  - apply H. cbn [trace]. apply in_or_app. right. cbn. auto.
Qed.

Lemma run_cannot_be_cancelled_witness :
  (forall us : list UserAction,
     let w1 := run stages zeros blobs (map User us) (analysing 0) in
     pending w1 = [0%nat] /\ runState w1 = Running /\
     let w2 := step stages zeros blobs (TimerFire 0) w1 in
     trace w2 = trace w1 ++ [ EvResolved 0; EvSetProgress (progressAt stages 0);
                              EvSetTimeout (0 + 1) (duration (mkStage "Face detection & extraction" 1200)) ] /\
     pending w2 = [(0 + 1)%nat] /\ runState w2 = Running) /\
  (forall uss : list (list UserAction),
     (0 + List.length uss = List.length stages)%nat ->
     runState (run stages zeros blobs (interleave uss) (analysing 0)) = Succeeded).
Proof.
  apply (run_cannot_be_cancelled stages zeros blobs (analysing 0) 0
           (mkStage "Face detection & extraction" 1200)).
  - reflexivity.
  - reflexivity.
  - reflexivity.
Defined.

(** ** C7 *)

(** ** C8 *)

Lemma result_within_bounds_witness :
  resultBounds (mockAt halves 0).
Proof.
  apply (result_within_bounds stages halves blobs
           (User (DropFiles [clip]) :: startAndFire 6) (mockAt halves 0)).
  - intros i. unfold halves. split; [discriminate|reflexivity].
  - reflexivity.
Defined.

(** ** C9 *)

(** C9: a result of an earlier run can be shown next to a newly selected
    file. A run is started on [clip]; after its first stage the user drops
    [other]. The selection clears the result and the progress value, but
    the run in flight goes on: its later stages overwrite the progress
    value and at the end it stores its result, which is then shown next to
    [other]. *)
Theorem stale_result_after_new_file :
  let selected := step stages zeros blobs (User (DropFiles [other])) (analysing 1) in
  let later := run stages zeros blobs (repeat (TimerFire 0) 5) selected in
  runState (analysing 1) = Running /\
  selectedFile (ui selected) = Some other /\
  result (ui selected) = None /\
  progress (ui selected) = 0 /\
  pending selected = [1%nat] /\
  selectedFile (ui later) = Some other /\
  result (ui later) = Some (mockAt zeros 0) /\
  progress (ui later) == 100 /\
  runState later = Succeeded.
Proof. vm_compute. repeat split. Qed.

(** ** C10 *)

Lemma rejected_file_changes_no_state_witness :
  let w' := handleFileSelect blobs picture (analysing 6) in
  ui w' = ui (analysing 6) /\
  selectedFile (ui w') = selectedFile (ui (analysing 6)) /\
  result (ui w') = result (ui (analysing 6)) /\
  progress (ui w') = progress (ui (analysing 6)) /\
  videoUrl (ui w') = videoUrl (ui (analysing 6)) /\
  pending w' = pending (analysing 6) /\ draws w' = draws (analysing 6) /\
  urls w' = urls (analysing 6) /\
  trace w' = trace (analysing 6) ++
    [EvToast (mkToast "Invalid File Type" "Please select a video file." Destructive)].
Proof.
  apply (rejected_file_changes_no_state blobs picture (analysing 6)).
  reflexivity.
Defined.

(** * Further properties on concrete runs *)

Lemma otherLoaded_ready : ready otherLoaded.
Proof. unfold ready. cbn. repeat split. discriminate. Qed.

Lemma analysing_6_ready : ready (analysing 6).
Proof. unfold ready. vm_compute. repeat split. discriminate. Qed.

(** Three stages into a second run on [clip] the result of the first run
    is still stored. *)
Lemma rerun_keeps_previous_result_witness :
  let w := run stages zeros blobs (startAndFire 3) (analysing 6) in
  result (ui w) =
    (if Nat.ltb 3 (List.length stages) then result (ui (analysing 6))
     else Some (mockAt zeros (draws (analysing 6)))) /\
  selectedFile (ui w) = selectedFile (ui (analysing 6)) /\
  videoUrl (ui w) = videoUrl (ui (analysing 6)).
Proof.
  apply (rerun_keeps_previous_result stages zeros blobs (analysing 6) 3).
  - exact analysing_6_ready.
  - cbn. lia.
Defined.

(** [clip] and [other] get the same result. *)
Lemma result_ignores_the_file_witness :
  result (ui (run stages halves blobs (startAndFire (List.length stages)) loaded)) =
  result (ui (run stages halves blobs (startAndFire (List.length stages)) otherLoaded)) /\
  result (ui (run stages halves blobs (startAndFire (List.length stages)) loaded))
    <> None.
Proof.
  apply (result_ignores_the_file stages halves blobs loaded otherLoaded).
  - exact loaded_ready.
  - exact otherLoaded_ready.
  - reflexivity.
Defined.

(** Under the draws [flipping] the first run on [clip] finds a deepfake
    and the second run on the same file does not. *)
Lemma successive_runs_use_fresh_draws_witness :
  (let once := run stages flipping blobs (startAndFire (List.length stages)) loaded in
   let twice := run stages flipping blobs (startAndFire (List.length stages)) once in
   result (ui once) = Some (mockAt flipping (draws loaded)) /\
   draws once = (5 + draws loaded)%nat /\
   result (ui twice) = Some (mockAt flipping (5 + draws loaded)) /\
   draws twice = (10 + draws loaded)%nat /\
   selectedFile (ui twice) = selectedFile (ui loaded)) /\
  isDeepfake (mockAt flipping 0) = true /\
  isDeepfake (mockAt flipping 5) = false.
Proof.
  split.
  - apply (successive_runs_use_fresh_draws stages flipping blobs loaded).
    exact loaded_ready.
  - split; reflexivity.
Defined.

Lemma completion_toast_matches_badge_witness :
  let w := run stages flipping blobs (startAndFire (List.length stages)) loaded in
  exists t b,
    last (trace w) (EvResolved 0) = EvToast t /\
    title t = "Analysis Complete" /\
    getResultBadge (ui w) = Some b /\
    badgeVariant b = variant t /\
    (variant t = Destructive <-> badgeLabel b = "DEEPFAKE DETECTED") /\
    (variant t = Default <-> badgeLabel b = "AUTHENTIC VIDEO").
Proof.
  apply (completion_toast_matches_badge stages flipping blobs loaded).
  exact loaded_ready.
Defined.

(** The six timers of the source's stages add up to 5600 ms, while the
    stored processing time is 4.6 s. *)
Lemma run_creates_one_timer_per_stage_witness :
  (timeouts (eventsSince loaded (run stages zeros blobs (startAndFire 2) loaded)) =
     map duration (firstn 3 stages) /\
   timeouts (eventsSince loaded
               (run stages zeros blobs (startAndFire (List.length stages)) loaded)) =
     map duration stages /\
   option_map processingTime
     (result (ui (run stages zeros blobs (startAndFire (List.length stages)) loaded))) =
     Some 4.6) /\
  sumZ (map duration stages) = 5600%Z.
Proof.
  split.
  - apply (run_creates_one_timer_per_stage stages zeros blobs loaded 2).
    + exact loaded_ready.
    + cbn. lia.
  - reflexivity.
Defined.

Lemma analysis_always_finishes_witness :
  let w := run stages zeros blobs (User (DropFiles [clip]) :: startAndFire 2) init in
  exists k, pending w = [k] /\ (k < List.length stages)%nat /\
    forall uss : list (list UserAction),
      (k + List.length uss = List.length stages)%nat ->
      runState (run stages zeros blobs (interleave uss) w) = Succeeded /\
      isProcessing (ui (run stages zeros blobs (interleave uss) w)) = false /\
      pending (run stages zeros blobs (interleave uss) w) = [].
Proof.
  apply (analysis_always_finishes stages zeros blobs
           (User (DropFiles [clip]) :: startAndFire 2)).
  vm_compute. reflexivity.
Defined.
